(** * OTP lifecycle of the WhatsApp login flow

    Shallow embedding of
    - [sql/whatsapp_otps.sql]  : table [otp_storage], [create_otp_entry],
      [verify_otp], [cleanup_expired_otps];
    - [sql/vendor_query.sql]   : [check_otp_rate_limit];
    - the Evolution API service : [sendWhatsAppOTP];
    - [send-otp.ts], [verify-otp.ts] : the two request handlers.

    A table is the list of its rows in storage order.  A stored procedure is
    a function from the table and the transaction's [NOW()] to the new
    table and a result; a procedure that raises leaves the table as it was,
    as its transaction is rolled back.  A handler is a function from the
    stores and from what the run reads from outside (clocks, random
    outcomes, the network) to the new stores and the HTTP response.

    Definitions come first, module by module; the properties follow. *)

From Stdlib Require Import ZArith NArith List String Ascii Bool Lia.
From Stdlib Require SpecFloat.
Import ListNotations.

Local Open Scope string_scope.
Local Open Scope list_scope.
Local Open Scope Z_scope.

(** ** PostgreSQL values *)

Module Pg.

(** [TIMESTAMPTZ]: microseconds since the epoch. *)
Definition timestamptz := Z.

(** [UUID]: a 128-bit number. *)
Definition uuid := N.

Inductive sql_error : Type :=
| unique_violation (constraint_name : string)
| numeric_value_out_of_range.

Inductive result (A : Type) : Type :=
| Ok (a : A)
| Err (e : sql_error).
Arguments Ok {A} a.
Arguments Err {A} e.

(** [INTEGER] is a signed 32-bit number; arithmetic and casts that leave
    the range raise [numeric_value_out_of_range]. *)
Definition int4_min : Z := - 2 ^ 31.
Definition int4_max : Z := 2 ^ 31 - 1.

Definition in_int4 (z : Z) : bool := (int4_min <=? z) && (z <=? int4_max).

Definition to_int4 (z : Z) : result Z :=
  if in_int4 z then Ok z else Err numeric_value_out_of_range.

(** [(m || ' minutes')::INTERVAL], in microseconds. *)
Definition minutes_interval (m : Z) : Z := m * 60000000.

(** [EXTRACT(EPOCH FROM iv)::INTEGER] for an interval of [us]
    microseconds: the epoch is the exact number of seconds (a [numeric]
    with six decimals) and the cast rounds it to the nearest integer,
    halves away from zero. *)
Definition round_half_away (num den : Z) : Z :=
  if 0 <=? num then (2 * num + den) / (2 * den)
  else - ((2 * (- num) + den) / (2 * den)).

Definition epoch_integer (us : Z) : result Z :=
  to_int4 (round_half_away us 1000000).

End Pg.

(** ** [otp_storage] and its stored procedures *)

Module Sql.
Import Pg.

(** One row of [public.otp_storage]. *)
Record otp_row : Type := mk_otp_row {
  id : uuid;
  phone_number : string;
  otp_code : string;
  created_at : timestamptz;
  expires_at : timestamptz;
  attempts : Z;
  verified : bool;
  request_ip : option string
}.

Definition otp_storage := list otp_row.

(** The two constraints of the table: [PRIMARY KEY (id)] and
    [CONSTRAINT unique_active_otp UNIQUE (phone_number, verified)]. *)
Definition same_active_key (a b : otp_row) : bool :=
  String.eqb (phone_number a) (phone_number b)
  && Bool.eqb (verified a) (verified b).

Definition insert_row (t : otp_storage) (r : otp_row) : result otp_storage :=
  if existsb (fun x => N.eqb (id x) (id r)) t
  then Err (unique_violation "otp_storage_pkey")
  else if existsb (fun x => same_active_key x r) t
  then Err (unique_violation "unique_active_otp")
  else Ok (t ++ [r]).

Definition active_key (r : otp_row) : string * bool :=
  (phone_number r, verified r).

Definition valid_table (t : otp_storage) : Prop :=
  NoDup (map id t) /\ NoDup (map active_key t).

(** [DELETE ... WHERE phone_number = p] *)
Definition delete_phone (t : otp_storage) (p : string) : otp_storage :=
  filter (fun r => negb (String.eqb (phone_number r) p)) t.

(** [DELETE ... WHERE id = i] *)
Definition delete_id (t : otp_storage) (i : uuid) : otp_storage :=
  filter (fun r => negb (N.eqb (id r) i)) t.

(** [UPDATE ... SET attempts = attempts + 1 WHERE id = i] *)
Definition bump (r : otp_row) : otp_row :=
  mk_otp_row (id r) (phone_number r) (otp_code r) (created_at r)
             (expires_at r) (attempts r + 1) (verified r) (request_ip r).

Definition increment_attempts (t : otp_storage) (i : uuid) : otp_storage :=
  map (fun r => if N.eqb (id r) i then bump r else r) t.

(** [ORDER BY created_at DESC LIMIT 1]: a row of greatest [created_at];
    among equal timestamps the one stored first. *)
Fixpoint newest (rows : list otp_row) : option otp_row :=
  match rows with
  | [] => None
  | r :: rest =>
      match newest rest with
      | Some r' => if created_at r <? created_at r' then Some r' else Some r
      | None => Some r
      end
  end.

Definition rows_of (t : otp_storage) (p : string) : list otp_row :=
  filter (fun r => String.eqb (phone_number r) p) t.

Definition live_rows (t : otp_storage) (p : string) : list otp_row :=
  filter (fun r => String.eqb (phone_number r) p && negb (verified r)) t.

(** *** [create_otp_entry] *)

Definition new_row (now : timestamptz) (p_phone_number p_otp_code : string)
    (p_expiry_minutes : Z) (p_request_ip : option string) (new_id : uuid)
  : otp_row :=
  {| id := new_id;
     phone_number := p_phone_number;
     otp_code := p_otp_code;
     created_at := now;
     expires_at := now + minutes_interval p_expiry_minutes;
     attempts := 0;
     verified := false;
     request_ip := p_request_ip |}.

(** [new_id] is the outcome of [gen_random_uuid()]. *)
Definition create_otp_entry (t : otp_storage) (now : timestamptz)
    (p_phone_number p_otp_code : string) (p_expiry_minutes : Z)
    (p_request_ip : option string) (new_id : uuid)
  : otp_storage * result uuid :=
  let t1 := delete_phone t p_phone_number in
  match insert_row t1 (new_row now p_phone_number p_otp_code
                               p_expiry_minutes p_request_ip new_id) with
  | Ok t2 => (t2, Ok new_id)
  | Err e => (t, Err e)
  end.

(** *** [verify_otp] *)

Record verify_result : Type := mk_verify_result {
  success : bool;
  message : string;
  remaining_attempts : Z
}.

Definition msg_no_otp := "No OTP found for this phone number".
Definition msg_expired := "OTP has expired".
Definition msg_max_attempts := "Maximum verification attempts exceeded".
Definition msg_verified := "OTP verified successfully".
Definition msg_invalid := "Invalid OTP code".

Definition verify_otp (t : otp_storage) (now : timestamptz)
    (p_phone_number p_otp_code : string) : otp_storage * verify_result :=
  match newest (live_rows t p_phone_number) with
  | None => (t, mk_verify_result false msg_no_otp 0)
  | Some v_otp =>
      if expires_at v_otp <? now then
        (delete_id t (id v_otp), mk_verify_result false msg_expired 0)
      else if attempts v_otp >=? 5 then
        (delete_id t (id v_otp), mk_verify_result false msg_max_attempts 0)
      else
        let t1 := increment_attempts t (id v_otp) in
        let v_remaining := 5 - (attempts v_otp + 1) in
        if String.eqb (otp_code v_otp) p_otp_code then
          (delete_id t1 (id v_otp),
           mk_verify_result true msg_verified v_remaining)
        else
          (t1, mk_verify_result false msg_invalid v_remaining)
  end.

(** *** [cleanup_expired_otps] *)

Definition cleanup_expired_otps (t : otp_storage) (now : timestamptz)
  : otp_storage * Z :=
  let kept := filter (fun r => negb (expires_at r <? now)) t in
  (kept, Z.of_nat (List.length t) - Z.of_nat (List.length kept)).

(** *** [check_otp_rate_limit] *)

Definition last_created (t : otp_storage) (p : string) : option timestamptz :=
  option_map created_at (newest (rows_of t p)).

Definition check_otp_rate_limit (t : otp_storage) (now : timestamptz)
    (p_phone_number : string) (p_window_seconds : Z) : result (bool * Z) :=
  match last_created t p_phone_number with
  | None => Ok (true, 0)
  | Some v_last_created =>
      match epoch_integer (now - v_last_created) with
      | Err e => Err e
      | Ok elapsed =>
          match to_int4 (p_window_seconds - elapsed) with
          | Err e => Err e
          | Ok v_wait =>
              if v_wait >? 0 then Ok (false, v_wait) else Ok (true, 0)
          end
      end
  end.

End Sql.

(** ** Runs of calls against the table *)

Module Run.
Import Pg Sql.

(** One [create_otp_entry] call with everything it reads. *)
Record issue_call : Type := mk_issue_call {
  ic_now : timestamptz;
  ic_phone : string;
  ic_code : string;
  ic_minutes : Z;
  ic_ip : option string;
  ic_uuid : uuid
}.

Definition issue (t : otp_storage) (c : issue_call)
  : otp_storage * result uuid :=
  create_otp_entry t (ic_now c) (ic_phone c) (ic_code c) (ic_minutes c)
                   (ic_ip c) (ic_uuid c).

Definition issue_all (t : otp_storage) (cs : list issue_call) : otp_storage :=
  fold_left (fun t c => fst (issue t c)) cs t.

(** Consecutive [verify_otp] calls for one phone, each with its [NOW()]
    and submitted code; the results are collected in call order. *)
Fixpoint verify_all (t : otp_storage) (p : string)
    (calls : list (timestamptz * string))
  : otp_storage * list verify_result :=
  match calls with
  | [] => (t, [])
  | (now, code) :: rest =>
      let (t1, r) := verify_otp t now p code in
      let (t2, rs) := verify_all t1 p rest in
      (t2, r :: rs)
  end.

(** A row with this id is in the table. *)
Definition stored (t : otp_storage) (i : uuid) : bool :=
  existsb (fun r => N.eqb (id r) i) t.

End Run.

(** ** The attempt-exhaustion scenario, as the specification words it

    A record is issued by [c]; [wrong] are five verify calls with wrong
    codes and [sixth] one more call.  The specification expects the
    remaining attempts 4, 3, 2, 1, 0, the record gone after the fifth call,
    and the sixth call to find no OTP. *)

Module Scenario.
Import Pg Sql Run.

Definition fresh_unexpired (t0 : otp_storage) (c : issue_call)
    (calls : list (timestamptz * string)) : Prop :=
  snd (issue t0 c) = Ok (ic_uuid c) /\
  Forall (fun call => fst call <= ic_now c + minutes_interval (ic_minutes c))
         calls.

Definition all_wrong (c : issue_call) (calls : list (timestamptz * string))
  : Prop :=
  Forall (fun call => snd call <> ic_code c) calls.

Definition exhaustion_as_specified (t0 : otp_storage) (c : issue_call)
    (wrong : list (timestamptz * string)) (sixth : timestamptz * string)
  : Prop :=
  let t1 := fst (issue t0 c) in
  let t2 := fst (verify_all t1 (ic_phone c) wrong) in
  let rs := snd (verify_all t1 (ic_phone c) wrong) in
  map remaining_attempts rs = [4; 3; 2; 1; 0] /\
  stored t2 (ic_uuid c) = false /\
  message (snd (verify_otp t2 (fst sixth) (ic_phone c) (snd sixth)))
  = msg_no_otp.

End Scenario.

(** ** JavaScript numbers

    A finite non-negative double is [m * 2^e] with [m < 2^53] and
    [e >= -1074], so it is a whole number of units of [2^-1074].  A value is
    kept as that whole number; an exact intermediate result, also a whole
    number of units here, is brought back to a double by rounding to 53
    significant bits, ties to even.  The values of this file stay below
    [2^21], far from the overflow threshold [2^1024]. *)

Module Js.

Definition one : Z := 2 ^ 1074.

(** [2^-53]: the distance from 1 to the double just below it. *)
Definition eps : Z := 2 ^ 1021.

(** Number of low bits dropped when [x] is rounded to 53 bits. *)
Definition ulp_shift (x : Z) : Z := Z.max 0 (Z.log2 x - 52).

Definition round_even (x : Z) : Z :=
  let g := 2 ^ ulp_shift x in
  let q := x / g in
  let r := x mod g in
  if 2 * r <? g then q * g
  else if g <? 2 * r then (q + 1) * g
  else if Z.even q then q * g
  else (q + 1) * g.

Definition is_double (x : Z) : Prop := 0 <= x /\ round_even x = x.

(** The double of a small non-negative integer literal. *)
Definition of_int (n : Z) : Z := n * one.

(** [x * n] for a double [x] and an integer-valued double [n]. *)
Definition mul_int (x n : Z) : Z := round_even (x * n).

(** [x + y] *)
Definition add (x y : Z) : Z := round_even (x + y).

(** [Math.floor(x)], as an integer. *)
Definition floor (x : Z) : Z := x / one.

(** An outcome of [Math.random()]: a double in [0, 1). *)
Definition is_random (u : Z) : Prop := is_double u /\ u < one.

(** [Number.prototype.toString()] of a non-negative integer-valued
    number below [10^21]: its decimal digits. *)
Definition digit_char (d : Z) : ascii := ascii_of_nat (48 + Z.to_nat d).

Fixpoint digits (fuel : nat) (n : Z) (acc : string) : string :=
  match fuel with
  | O => acc
  | S fuel' =>
      let acc' := String (digit_char (n mod 10)) acc in
      if n / 10 =? 0 then acc' else digits fuel' (n / 10) acc'
  end.

Definition toString (n : Z) : string := digits 22 n "".

(** [string.startsWith(prefix)] *)
Definition startsWith (s pre : string) : bool := String.prefix pre s.

Definition is_digit (c : ascii) : bool :=
  (48 <=? nat_of_ascii c)%nat && (nat_of_ascii c <=? 57)%nat.

Fixpoint all_digits (s : string) : bool :=
  match s with
  | EmptyString => true
  | String c s' => is_digit c && all_digits s'
  end.

(** [/^<pre>\d{n}$/.test(s)] for a literal prefix [pre]. *)
Definition test_prefix_digits (pre : string) (n : nat) (s : string) : bool :=
  String.prefix pre s
  && (let rest := String.substring (String.length pre)
                                   (String.length s - String.length pre) s in
      Nat.eqb (String.length rest) n && all_digits rest).

(** [s.split(',')[0]]: the text before the first comma. *)
Fixpoint before_comma (s : string) : string :=
  match s with
  | EmptyString => EmptyString
  | String c s' =>
      if Ascii.eqb c ","%char then EmptyString else String c (before_comma s')
  end.

(** A request-body field: absent, or a string. *)
Inductive js_value : Type :=
| JsUndefined
| JsString (s : string).

(** [!v] *)
Definition falsy (v : js_value) : bool :=
  match v with
  | JsUndefined => true
  | JsString s => String.eqb s ""
  end.

End Js.

(** ** The Evolution API service *)

Module Evolution.
Import Js.

(** The three environment variables; [None] when not set. *)
Record config : Type := mk_config {
  EVOLUTION_API_URL : option string;
  EVOLUTION_API_KEY : option string;
  EVOLUTION_INSTANCE_NAME : option string
}.

(** [!v] for an environment variable. *)
Definition unset (v : option string) : bool :=
  match v with
  | None => true
  | Some s => String.eqb s ""
  end.

Definition text_of (v : option string) : string :=
  match v with
  | None => "undefined"
  | Some s => s
  end.

(** [s.includes(needle)] *)
Fixpoint includes (needle s : string) : bool :=
  String.prefix needle s
  || match s with
     | EmptyString => false
     | String _ s' => includes needle s'
     end.

Definition isNgrok (c : config) : bool :=
  match EVOLUTION_API_URL c with
  | None => false
  | Some url => includes "ngrok" url
  end.

(** [phone.replace(/^\+/, '')] *)
Definition formatPhoneForWhatsApp (phone : string) : string :=
  match phone with
  | String "+"%char rest => rest
  | _ => phone
  end.

Definition createOTPMessageText (otp : string) (expiryMinutes : Z) : string :=
  ("Your OTP for themanipalmarketplace is: " ++ otp ++ ". Will expire in "
     ++ toString expiryMinutes ++ " minutes.")%string.

(** The POST request handed to [fetch]. *)
Record request : Type := mk_request {
  endpoint : string;
  apikey : string;
  number : string;
  text : string;
  insecure_agent : bool
}.

(** A thrown value: an [Error] with its message, or anything else. *)
Inductive thrown : Type :=
| ErrorObject (message : string)
| OtherValue.

(** What [fetch] does with a request: it rejects, or it resolves with a
    response whose [json()] parses ([None]) or throws. *)
Inductive fetch_outcome : Type :=
| Rejected (e : thrown)
| Responded (ok : bool) (status : Z) (statusText : string)
            (json : option thrown).

Record send_result : Type := mk_send_result {
  success : bool;
  error : option string
}.

Definition caught (e : thrown) : send_result :=
  mk_send_result false
    (Some match e with
          | ErrorObject m => m
          | OtherValue => "Unknown error"
          end).

Definition sendWhatsAppOTP (c : config) (fetch : request -> fetch_outcome)
    (phoneNumber otpCode : string) (expiryMinutes : Z) : send_result :=
  if unset (EVOLUTION_API_URL c) || unset (EVOLUTION_API_KEY c)
     || unset (EVOLUTION_INSTANCE_NAME c)
  then mk_send_result false (Some "Evolution API not configured")
  else
    let whatsappNumber := formatPhoneForWhatsApp phoneNumber in
    let messageText := createOTPMessageText otpCode expiryMinutes in
    let endpoint :=
      (text_of (EVOLUTION_API_URL c) ++ "/message/sendText/"
         ++ text_of (EVOLUTION_INSTANCE_NAME c))%string in
    let fetchOptions :=
      mk_request endpoint (text_of (EVOLUTION_API_KEY c)) whatsappNumber
                 messageText (isNgrok c) in
    match fetch fetchOptions with
    | Rejected e => caught e
    | Responded ok status statusText json =>
        if negb ok then
          mk_send_result false
            (Some ("Evolution API returned " ++ toString status ++ ": "
                     ++ statusText)%string)
        else
          match json with
          | Some e => caught e
          | None => mk_send_result true None
          end
    end.

End Evolution.

(** ** [send-otp.ts] *)

Module SendOtp.
Import Pg Sql Js.

Record request : Type := mk_request {
  method : string;
  has_body : bool;
  phoneNumber : js_value;
  x_forwarded_for : option string;
  remoteAddress : option string
}.

(** Everything one run of the handler reads from outside: the clocks of
    its two transactions, the outcome of [Math.random()], the uuid drawn
    by the database, the configuration and the network. *)
Record world : Type := mk_world {
  now_rate_limit : timestamptz;
  now_create : timestamptz;
  random : Z;
  random_uuid : uuid;
  evolution : Evolution.config;
  fetch : Evolution.request -> Evolution.fetch_outcome
}.

Inductive body : Type :=
| ErrorBody (error : string)
| RateLimitedBody (error : string) (wait_seconds : Z)
| SuccessBody (message : string) (expiresIn : Z).

Record response : Type := mk_response {
  status : Z;
  json : body
}.

(** [Math.floor(100000 + Math.random() * 900000).toString()] *)
Definition otp_number (u : Z) : Z :=
  floor (add (of_int 100000) (mul_int u 900000)).

Definition generate_otp (u : Z) : string := toString (otp_number u).

(** The codes of the specification: the strings 000000 to 999999. *)
Definition six_digits (s : string) : bool :=
  Nat.eqb (String.length s) 6 && all_digits s.

(** The specification's reading of the generator: every six-digit
    string is the code for some outcome of the random source. *)
Definition covers_all_six_digit_strings : Prop :=
  forall s, six_digits s = true ->
            exists u, is_random u /\ generate_otp u = s.

Definition nonempty (s : option string) : option string :=
  match s with
  | Some v => if String.eqb v "" then None else Some v
  | None => None
  end.

Definition requestIp (req : request) : string :=
  match nonempty (option_map before_comma (x_forwarded_for req)) with
  | Some ip => ip
  | None =>
      match nonempty (remoteAddress req) with
      | Some ip => ip
      | None => "unknown"
      end
  end.

Definition isValidFormat (phone : string) : bool :=
  test_prefix_digits "+1" 10 phone || test_prefix_digits "+91" 10 phone.

Definition handler (t : otp_storage) (req : request) (w : world)
  : otp_storage * response :=
  if negb (String.eqb (method req) "POST") then
    (t, mk_response 405 (ErrorBody "Method not allowed"))
  else if negb (has_body req) then
    (t, mk_response 500 (ErrorBody "An unexpected error occurred"))
  else if falsy (phoneNumber req) then
    (t, mk_response 400 (ErrorBody "Phone number is required"))
  else
    match phoneNumber req with
    | JsUndefined =>
        (t, mk_response 400 (ErrorBody "Phone number is required"))
    | JsString formattedPhone =>
        if negb (startsWith formattedPhone "+") then
          (t, mk_response 400 (ErrorBody
             "Phone number must include country code (e.g., +91 or +1)"))
        else if negb (isValidFormat formattedPhone) then
          (t, mk_response 400 (ErrorBody
             "Invalid phone number format. Must be +1 or +91 followed by 10 digits."))
        else
          match check_otp_rate_limit t (now_rate_limit w) formattedPhone 15 with
          | Err _ =>
              (t, mk_response 500 (ErrorBody "Failed to check rate limit"))
          | Ok (allowed, wait_seconds) =>
              if negb allowed then
                (t, mk_response 429
                      (RateLimitedBody
                         ("Too many OTP requests. Please wait "
                            ++ toString wait_seconds
                            ++ " seconds before trying again.")%string
                         wait_seconds))
              else
                let otpCode := generate_otp (random w) in
                match create_otp_entry t (now_create w) formattedPhone otpCode
                                       5 (Some (requestIp req))
                                       (random_uuid w) with
                | (t', Err _) =>
                    (t', mk_response 500 (ErrorBody "Failed to create OTP"))
                | (t', Ok otpId) =>
                    let whatsappResult :=
                      Evolution.sendWhatsAppOTP (evolution w) (fetch w)
                                                formattedPhone otpCode 5 in
                    let sent :=
                      mk_response 200 (SuccessBody "OTP sent successfully" 300) in
                    if negb (Evolution.success whatsappResult)
                    then (t', sent)   (* logged, then continues *)
                    else (t', sent)
                end
          end
    end.

End SendOtp.

(** ** The identity collaborator *)

Module Identity.

Record user : Type := mk_user {
  user_id : N;
  phone : string;
  password : option string;
  phone_confirm : bool
}.

Definition directory := list user.

(** [u.phone === p] *)
Definition has_phone (p : string) (u : user) : bool := String.eqb (phone u) p.

Inductive auth_result (A : Type) : Type :=
| AuthOk (a : A)
| AuthError (message : string).
Arguments AuthOk {A} a.
Arguments AuthError {A} message.

(** A session: its token and the account it is bound to. *)
Record session : Type := mk_session {
  access_token : string;
  session_user_id : N;
  session_phone : string
}.

(** Modelled from the spec: the identity collaborator (the Supabase Auth
    client) is outside the repository; [listUsers] returns the directory
    in which section 6's [findByPhone] looks an account up by exact
    phone. *)
Definition listUsers (d : directory) : auth_result (list user) := AuthOk d.

(** Modelled from the spec: [createAccount(phone, confirmed)] of section
    6, with the optional initial credential the handler passes.  As the
    handler's own comments say of [createUser], creating an account for
    a phone that already has one fails. *)
Definition createUser (d : directory) (new_id : N) (p : string)
    (pw : option string) (confirm : bool)
  : directory * auth_result user :=
  if existsb (has_phone p) d
  then (d, AuthError "Phone number already registered by another user")
  else let u := mk_user new_id p pw confirm in (d ++ [u], AuthOk u).

Definition set_password (pw : string) (u : user) : user :=
  mk_user (user_id u) (phone u) (Some pw) (phone_confirm u).

(** Modelled from the spec: the first half of section 6's
    [setCredentialAndAuthenticate]: the secret becomes the credential of
    the account with this id. *)
Definition updateUserById (d : directory) (i : N) (pw : string) : directory :=
  map (fun u => if N.eqb (user_id u) i then set_password pw u else u) d.

(** Modelled from the spec: the second half of
    [setCredentialAndAuthenticate]: the account of the phone
    authenticates with its credential and gets a session bound to it. *)
Definition signInWithPassword (d : directory) (token : string)
    (p pw : string) : auth_result session :=
  match find (has_phone p) d with
  | Some u =>
      match password u with
      | Some stored =>
          if String.eqb stored pw
          then AuthOk (mk_session token (user_id u) (phone u))
          else AuthError "Invalid login credentials"
      | None => AuthError "Invalid login credentials"
      end
  | None => AuthError "Invalid login credentials"
  end.

End Identity.

(** ** [verify-otp.ts] *)

Module VerifyOtp.
Import Pg Sql Js Identity.

(** The request, with its JSON body present. *)
Record request : Type := mk_request {
  method : string;
  phoneNumber : js_value;
  otp : js_value
}.

(** The two stores the handler works on. *)
Record state : Type := mk_state {
  otps : otp_storage;
  users : directory
}.

(** What one run reads from outside: the clock of the verify
    transaction, the two outcomes of
    [Math.random().toString(36).slice(-8)], the ids the identity
    collaborator gives to accounts it creates, and the token of the
    session it mints. *)
Record world : Type := mk_world {
  now : timestamptz;
  random36_first : string;
  random36_second : string;
  new_user_id : N;
  new_user_id' : N;
  token : string
}.

Inductive body : Type :=
| ErrorBody (error : string)
| RejectedBody (error : string) (remaining_attempts : Z)
| SuccessBody (message : string) (session : Identity.session).

Record response : Type := mk_response {
  status : Z;
  json : body
}.

Definition text_of (v : js_value) : string :=
  match v with
  | JsUndefined => ""
  | JsString s => s
  end.

Definition tempPassword (w : world) : string :=
  (random36_first w ++ random36_second w ++ "Aa1!")%string.

(** The session-minting part of the handler, from [listUsers] on. *)
Definition mintSession (d : directory) (formattedPhone : string) (w : world)
  : directory * response :=
  match listUsers d with
  | AuthError _ => (d, mk_response 500 (ErrorBody "Auth error"))
  | AuthOk all_users =>
      let existingUser := find (has_phone formattedPhone) all_users in
      let created :=
        match existingUser with
        | Some u => (d, AuthOk u)
        | None => createUser d (new_user_id w) formattedPhone None true
        end in
      match created with
      | (d1, AuthError _) =>
          (d1, mk_response 500 (ErrorBody "Failed to create user account"))
      | (d1, AuthOk _) =>
          let password := tempPassword w in
          let credential :=
            match existingUser with
            | Some u => (updateUserById d1 (user_id u) password, AuthOk u)
            | None =>
                createUser d1 (new_user_id' w) formattedPhone
                           (Some password) true
            end in
          match credential with
          | (d2, AuthError _) =>
              (d2, mk_response 500 (ErrorBody "Internal server error"))
          | (d2, AuthOk _) =>
              match signInWithPassword d2 (token w) formattedPhone password with
              | AuthError _ =>
                  (d2, mk_response 500 (ErrorBody "Failed to generate session"))
              | AuthOk s =>
                  (d2, mk_response 200
                         (SuccessBody "OTP verified successfully" s))
              end
          end
      end
  end.

Definition handler (s : state) (req : request) (w : world)
  : state * response :=
  if negb (String.eqb (method req) "POST") then
    (s, mk_response 405 (ErrorBody "Method not allowed"))
  else if falsy (phoneNumber req) || falsy (otp req) then
    (s, mk_response 400 (ErrorBody "Phone number and OTP are required"))
  else
    let formattedPhone := text_of (phoneNumber req) in
    let (t', result) :=
      verify_otp (otps s) (now w) formattedPhone (text_of (otp req)) in
    if negb (success result) then
      (mk_state t' (users s),
       mk_response 400
         (RejectedBody
            (if String.eqb (message result) "" then "Invalid OTP"
             else message result)
            (Sql.remaining_attempts result)))
    else
      let (d', resp) := mintSession (users s) formattedPhone w in
      (mk_state t' d', resp).

End VerifyOtp.

(** ** The login scenario and the credential contract, as the
    specification words them *)

Module Contract.
Import Pg Sql Run Js Identity VerifyOtp.

(** Section 8's concrete scenario on the verifier: after the issuance
    [c], a wrong code is answered "Invalid OTP code" with 4 attempts
    remaining, and the right code next is answered with success and,
    again, 4 attempts remaining. *)
Definition scenario_as_specified (t0 : otp_storage) (c : issue_call)
    (wrong : string) (now1 now2 : timestamptz) : Prop :=
  let t1 := fst (issue t0 c) in
  let t2 := fst (verify_otp t1 now1 (ic_phone c) wrong) in
  snd (verify_otp t1 now1 (ic_phone c) wrong)
    = mk_verify_result false msg_invalid 4 /\
  success (snd (verify_otp t2 now2 (ic_phone c) (ic_code c))) = true /\
  Sql.remaining_attempts (snd (verify_otp t2 now2 (ic_phone c) (ic_code c)))
    = 4.

(** Section 4.4's contract: once [mintSession] has answered with a
    session, the secret it used no longer authenticates. *)
Definition secret_is_burned (d : directory) (p : string) (w : world) : Prop :=
  forall d' msg s,
    mintSession d p w = (d', mk_response 200 (SuccessBody msg s)) ->
    forall token', exists e,
      signInWithPassword d' token' p (tempPassword w) = AuthError e.

Definition post (p code : string) : request :=
  mk_request "POST" (JsString p) (JsString code).

End Contract.

(** ** Concrete inputs *)

Module Demo.
Import Pg Sql Run Js.

Definition phone : string := "+15551234567".

(** The record of the concrete scenario: issued at time 0 for five
    minutes. *)
Definition row : otp_row := new_row 0 phone "482913" 5 None 1%N.

Definition table : otp_storage := [row].

Definition reissue : issue_call :=
  mk_issue_call 20000000 phone "731135" 5 None 2%N.

Definition send_request : SendOtp.request :=
  SendOtp.mk_request "POST" true (JsString phone) None None.

(** A run in which the Evolution API is not configured. *)
Definition send_world : SendOtp.world :=
  SendOtp.mk_world 0 0 0 1%N (Evolution.mk_config None None None)
                   (fun _ => Evolution.Rejected Evolution.OtherValue).

Definition send_code : string := SendOtp.generate_otp (SendOtp.random send_world).

Definition sent_table : otp_storage :=
  [new_row 0 phone send_code 5 (Some "unknown") 1%N].

Definition account : Identity.user := Identity.mk_user 7 phone None true.

Definition login_world (t : timestamptz) : VerifyOtp.world :=
  VerifyOtp.mk_world t "k3j9x0ab" "q7w1e5rt" 8 9 "token".

Definition issued : issue_call := mk_issue_call 0 phone "482913" 5 None 1%N.

Definition wrong_calls : list (timestamptz * string) :=
  [(1000000, "000000"); (2000000, "000000"); (3000000, "000000");
   (4000000, "000000"); (5000000, "000000")].

(** The two requests of the login scenario, one after the other. *)
Definition login_state : VerifyOtp.state :=
  VerifyOtp.mk_state (fst (issue [] issued)) [account].

Definition after_wrong : VerifyOtp.state * VerifyOtp.response :=
  VerifyOtp.handler login_state (Contract.post phone "000000") (login_world 1000000).

Definition after_right : VerifyOtp.state * VerifyOtp.response :=
  VerifyOtp.handler (fst after_wrong) (Contract.post phone "482913")
                    (login_world 2000000).

(** The directory after a mint for the account. *)
Definition minted : Identity.directory :=
  Identity.updateUserById [account] 7 (VerifyOtp.tempPassword (login_world 0)).

End Demo.

(** ** The same sum in the Standard Library's IEEE 754 specification

    [SpecFloat] gives binary64 multiplication and addition on
    mantissa-exponent pairs.  The sum the handler computes is evaluated
    there as well, to compare [Js.add] and [Js.mul_int] with it on sample
    outcomes [m * 2^-53] of the random source. *)

Module Ieee.

Definition finite (m e : Z) : SpecFloat.spec_float :=
  match m with
  | Zpos p => SpecFloat.S754_finite false p e
  | _ => SpecFloat.S754_zero false
  end.

(** A non-negative finite value in units of [2^-1074]. *)
Definition units (f : SpecFloat.spec_float) : option Z :=
  match f with
  | SpecFloat.S754_zero _ => Some 0
  | SpecFloat.S754_finite false m e => Some (Zpos m * 2 ^ (e + 1074))
  | _ => None
  end.

Definition otp_sum (m : Z) : option Z :=
  units (SpecFloat.SFadd 53 1024 (finite 100000 0)
           (SpecFloat.SFmul 53 1024 (finite m (-53)) (finite 900000 0))).

Definition agrees (m : Z) : bool :=
  match otp_sum m with
  | Some z => z =? Js.add (Js.of_int 100000) (Js.mul_int (m * Js.eps) 900000)
  | None => false
  end.

(** Sample mantissas from a linear congruential sequence. *)
Fixpoint samples (n : nat) (x : Z) : list Z :=
  match n with
  | O => []
  | S k =>
      let y := (x * 6364136223846793005 + 1442695040888963407) mod 2 ^ 64 in
      y / 2 ^ 11 :: samples k y
  end.

End Ieee.

(** ** Attempt budget of a table *)

Module Budget.
Import Pg Sql Run.

(** Every stored counter is between 0 and the budget of 5. *)
Definition attempts_in_range (t : otp_storage) : Prop :=
  Forall (fun r => 0 <= attempts r <= 5) t.

(** The call got as far as comparing the submitted code. *)
Definition compared (r : verify_result) : bool :=
  String.eqb (message r) msg_invalid || String.eqb (message r) msg_verified.

(** What is left of the budget of the phone's live record. *)
Definition left_of (t : otp_storage) (p : string) : Z :=
  match newest (live_rows t p) with
  | Some v => 5 - attempts v
  | None => 0
  end.

End Budget.

(** ** Settings of the OTP notifier *)

Module Settings.
Import Evolution.


End Settings.

(** ** [web/lib/evolution-api.ts]: order notifications

    A string is kept as its UTF-8 bytes.  The operations used here
    (concatenation, removal of ASCII characters and of white space) act
    the same on the bytes as on the UTF-16 code units of the source, a
    white-space character outside ASCII being the byte sequence given
    below. *)

Module OrderNotify.
Import Js.

Definition byte (a : ascii) : nat := nat_of_ascii a.

(** The ASCII members of [\s]: tab, line feed, vertical tab, form feed,
    carriage return, space. *)
Definition ws1 (a : ascii) : bool :=
  ((9 <=? byte a) && (byte a <=? 13))%nat || (byte a =? 32)%nat.

(** U+00A0. *)
Definition ws2 (a b : ascii) : bool :=
  ((byte a =? 194) && (byte b =? 160))%nat.

(** U+1680, U+2000 to U+200A, U+2028, U+2029, U+202F, U+205F, U+3000,
    U+FEFF. *)
Definition ws3 (a b c : ascii) : bool :=
  ((byte a =? 225) && (byte b =? 154) && (byte c =? 128)
   || (byte a =? 226) && (byte b =? 128)
      && (((128 <=? byte c) && (byte c <=? 138))
          || (byte c =? 168) || (byte c =? 169) || (byte c =? 175))
   || (byte a =? 226) && (byte b =? 129) && (byte c =? 159)
   || (byte a =? 227) && (byte b =? 128) && (byte c =? 128)
   || (byte a =? 239) && (byte b =? 187) && (byte c =? 191))%nat.

(** [s.replace(/\s+/g, "")] *)
Fixpoint remove_whitespace (s : string) : string :=
  match s with
  | EmptyString => EmptyString
  | String a rest =>
      if ws1 a then remove_whitespace rest
      else
        match rest with
        | String b rest2 =>
            if ws2 a b then remove_whitespace rest2
            else
              match rest2 with
              | String c rest3 =>
                  if ws3 a b c then remove_whitespace rest3
                  else String a (remove_whitespace rest)
              | EmptyString => String a (remove_whitespace rest)
              end
        | EmptyString => String a EmptyString
        end
  end.

(** [s.replace(/-/g, "")] *)
Fixpoint remove_dashes (s : string) : string :=
  match s with
  | EmptyString => EmptyString
  | String a rest =>
      if Ascii.eqb a "-"%char then remove_dashes rest
      else String a (remove_dashes rest)
  end.

(** [s.replace(/\D/g, "")] *)
Fixpoint digits_only (s : string) : string :=
  match s with
  | EmptyString => EmptyString
  | String a rest =>
      if is_digit a then String a (digits_only rest) else digits_only rest
  end.

(** [/^\d{10,15}$/.test(s)] *)
Definition ten_to_fifteen_digits (s : string) : bool :=
  (10 <=? String.length s)%nat && (String.length s <=? 15)%nat
  && all_digits s.

Definition formatPhoneForEvolution (phone : option string) : option string :=
  match phone with
  | None => None
  | Some p =>
      if String.eqb p "" then None
      else
        let cleaned := remove_dashes (remove_whitespace p) in
        let cleaned :=
          if startsWith cleaned "+"
          then substring 1 (String.length cleaned - 1) cleaned
          else cleaned in
        if negb (ten_to_fifteen_digits cleaned) then None else Some cleaned
  end.

Record VendorInfo : Type := mk_vendor {
  name : string;
  phone : option string
}.




(** [parts.join(sep)] *)
Fixpoint join (sep : string) (parts : list string) : string :=
  match parts with
  | [] => EmptyString
  | [x] => x
  | x :: rest => (x ++ sep ++ join sep rest)%string
  end.

(** The [Map] from vendor name to vendor, as its entries in insertion
    order. *)
Definition vendor_map := list (string * VendorInfo).

Definition has (m : vendor_map) (k : string) : bool :=
  existsb (fun e => String.eqb (fst e) k) m.

(** [set] for a key the map does not have. *)
Definition set_new (m : vendor_map) (k : string) (v : VendorInfo) : vendor_map :=
  m ++ [(k, v)].

Definition uniqueVendorsMap (vs : list VendorInfo) : vendor_map :=
  fold_left (fun m vendor =>
               if negb (has m (name vendor)) then set_new m (name vendor) vendor
               else m)
            vs [].

Definition uniqueVendors (vs : list VendorInfo) : list VendorInfo :=
  map snd (uniqueVendorsMap vs).

Definition vendorLink (v : VendorInfo) : string :=
  match phone v with
  | Some p =>
      if String.eqb p "" then name v
      else
        let cleanPhone := digits_only p in
        let intlPhone := ("91" ++ cleanPhone)%string in
        (name v ++ ": https://wa.me/" ++ intlPhone)%string
  | None => name v
  end.




(** [s.replace(/\/+$/, "")] *)
Fixpoint strip_trailing_slashes (s : string) : string :=
  match s with
  | EmptyString => EmptyString
  | String a rest =>
      let rest' := strip_trailing_slashes rest in
      if String.eqb rest' "" && Ascii.eqb a "/"%char then EmptyString
      else String a rest'
  end.

(** A run of [n] slashes. *)
Fixpoint slashes (n : nat) : string :=
  match n with
  | O => EmptyString
  | S k => String "/"%char (slashes k)
  end.

(** The request handed to [fetch]. *)
Record request : Type := mk_request {
  endpoint : string;
  apikey : string;
  number : string;
  text : string
}.

(** [fetch] rejects, or resolves with a response and the text of its
    body. *)
Inductive fetch_outcome : Type :=
| Rejected (e : Evolution.thrown)
| Responded (ok : bool) (body : string).



End OrderNotify.

(** ** The order webhook: vendor lookup *)

Module Vendor.
Import OrderNotify.

(** A field of the vendor metaobject. *)
Record MetaobjectField : Type := mk_field {
  key : string;
  value : string
}.

(** What the GraphQL request gives: it throws, or it resolves, with the
    fields of [data?.product?.metafield?.reference] when every link of
    that chain is present. *)
Inductive graphql_outcome : Type :=
| Threw
| Resolved (fields : option (list MetaobjectField)).

(** [fields.find((f) => f.key === k)?.value], when it is a non-empty
    string. *)
Definition field_value (fields : list MetaobjectField) (k : string)
  : option string :=
  match find (fun f => String.eqb (key f) k) fields with
  | Some f => if String.eqb (value f) "" then None else Some (value f)
  | None => None
  end.

Definition fetchVendorInfo (response : graphql_outcome) : VendorInfo :=
  match response with
  | Threw => mk_vendor "Vendor" None
  | Resolved found =>
      let fields := match found with Some l => l | None => [] end in
      let name := match field_value fields "name" with
                  | Some n => n
                  | None => "Vendor"
                  end in
      let phone := field_value fields "phone" in
      mk_vendor name phone
  end.

End Vendor.

(** ** [web/lib/shopify/initialize-context.ts] *)

Module Shopify.



Definition drop (n : nat) (s : string) : string :=
  substring n (String.length s - n) s.

(** [s.replace(/https?:\/\//, "")]: the first scheme in the string, if
    there is one, is removed. *)
Fixpoint remove_scheme (s : string) : string :=
  if String.prefix "https://" s then drop 8 s
  else if String.prefix "http://" s then drop 7 s
  else match s with
       | EmptyString => EmptyString
       | String a rest => String a (remove_scheme rest)
       end.

(** [s.split(",")] *)
Fixpoint split_comma (s : string) : list string :=
  match s with
  | EmptyString => [EmptyString]
  | String a rest =>
      if Ascii.eqb a ","%char then EmptyString :: split_comma rest
      else match split_comma rest with
           | part :: parts => String a part :: parts
           | [] => [String a EmptyString]
           end
  end.

(** [part.includes(",")] *)
Fixpoint has_comma (s : string) : bool :=
  match s with
  | EmptyString => false
  | String a rest => Ascii.eqb a ","%char || has_comma rest
  end.




Definition text_of (v : option string) : string :=
  match v with
  | Some s => s
  | None => EmptyString
  end.



End Shopify.

(** ** More concrete inputs *)

Module Sample.
Import Pg Sql Run Js.

Definition other_phone : string := "+919876543210".

Definition other_row : otp_row :=
  new_row 1000000 other_phone "660011" 5 None 2%N.

(** Two phones, one record each. *)
Definition two_phones : otp_storage := [Demo.row; other_row].

(** A second issuance request, five seconds after [Demo.send_world]'s. *)
Definition second_world : SendOtp.world :=
  SendOtp.mk_world 5000000 5000000 0 3%N (Evolution.mk_config None None None)
                   (fun _ => Evolution.Rejected Evolution.OtherValue).

(** A verification state in which the phone has a record and no
    account. *)
Definition newcomer : VerifyOtp.state := VerifyOtp.mk_state Demo.table [].

Definition written_phone : string := "+91 98765-43210".

End Sample.

(** * Properties *)

Import Pg Sql Run Scenario.

(** ** Lists and tables *)

Section TableLemmas.

Lemma NoDup_constant_le1 {A : Type} (a : A) (l : list A) :
  NoDup l -> (forall x, In x l -> x = a) -> (List.length l <= 1)%nat.
Proof.
  intros Hnd Hall.
  destruct l as [|x [|y l']]; simpl; try lia.
  exfalso. inversion Hnd as [|? ? Hnotin _]; subst.
  apply Hnotin. left.
  rewrite (Hall x), (Hall y); simpl; auto.
Qed.

Lemma NoDup_map_filter {A B : Type} (f : A -> B) (q : A -> bool) (l : list A) :
  NoDup (map f l) -> NoDup (map f (filter q l)).
Proof.
  induction l as [|x l IH]; simpl; intros Hnd; [constructor|].
  inversion Hnd as [|? ? Hnotin Hrest]; subst.
  destruct (q x); simpl; [constructor|]; auto.
  intros Hin. apply Hnotin.
  apply in_map_iff in Hin. destruct Hin as [y [Hy Hin]].
  apply filter_In in Hin. apply in_map_iff. exists y. tauto.
Qed.

Lemma filter_comm {A : Type} (q1 q2 : A -> bool) (l : list A) :
  filter q1 (filter q2 l) = filter q2 (filter q1 l).
Proof.
  induction l as [|x l IH]; simpl; [reflexivity|].
  destruct (q1 x) eqn:E1, (q2 x) eqn:E2; simpl;
    rewrite ?E1, ?E2, IH; reflexivity.
Qed.

Lemma filter_none {A : Type} (q : A -> bool) (l : list A) :
  (forall x, In x l -> q x = false) -> filter q l = [].
Proof.
  induction l as [|x l IH]; simpl; intros H; [reflexivity|].
  rewrite (H x) by auto. apply IH. intros; apply H; auto.
Qed.

Lemma filter_all {A : Type} (q : A -> bool) (l : list A) :
  (forall x, In x l -> q x = true) -> filter q l = l.
Proof.
  induction l as [|x l IH]; simpl; intros H; [reflexivity|].
  rewrite (H x) by auto. f_equal. apply IH. intros; apply H; auto.
Qed.

Lemma newest_none (rows : list otp_row) :
  newest rows = None <-> rows = [].
Proof.
  split; [|intros ->; reflexivity].
  destruct rows as [|r rest]; simpl; [reflexivity|].
  destruct (newest rest) as [r'|]; [|discriminate].
  destruct (created_at r <? created_at r'); discriminate.
Qed.

Lemma newest_In (rows : list otp_row) (r : otp_row) :
  newest rows = Some r -> In r rows.
Proof.
  revert r. induction rows as [|x rest IH]; simpl; intros r H; [discriminate|].
  destruct (newest rest) as [r'|].
  - destruct (created_at x <? created_at r'); inversion H; subst; auto.
  - inversion H; auto.
Qed.

Lemma newest_greatest (rows : list otp_row) (r : otp_row) :
  newest rows = Some r ->
  forall r', In r' rows -> created_at r' <= created_at r.
Proof.
  revert r. induction rows as [|x rest IH]; simpl; intros r H r' Hin;
    [contradiction|].
  destruct (newest rest) as [m|] eqn:Em.
  - specialize (IH m eq_refl).
    destruct (created_at x <? created_at m) eqn:E;
      inversion H; subst; clear H;
      [apply Z.ltb_lt in E | apply Z.ltb_ge in E];
      destruct Hin as [->|Hin]; try lia;
      specialize (IH r' Hin); lia.
  - apply newest_none in Em. subst rest. inversion H; subst.
    destruct Hin as [->|[]]; lia.
Qed.

Lemma newest_map (f : otp_row -> otp_row) (rows : list otp_row) :
  (forall r, created_at (f r) = created_at r) ->
  newest (map f rows) = option_map f (newest rows).
Proof.
  intros Hf. induction rows as [|x rest IH]; simpl; [reflexivity|].
  rewrite IH. destruct (newest rest) as [m|]; simpl; [|reflexivity].
  rewrite !Hf. destruct (created_at x <? created_at m); reflexivity.
Qed.

Lemma filter_map_commute {A : Type} (f : A -> A) (q : A -> bool) (l : list A) :
  (forall x, q (f x) = q x) ->
  filter q (map f l) = map f (filter q l).
Proof.
  intros Hq. induction l as [|x l IH]; simpl; [reflexivity|].
  rewrite Hq. destruct (q x); simpl; rewrite IH; reflexivity.
Qed.

(** What the unique constraint buys: one live row per phone at most. *)
Lemma live_rows_le1 (t : otp_storage) (p : string) :
  valid_table t -> (List.length (live_rows t p) <= 1)%nat.
Proof.
  intros [_ Hkey].
  rewrite <- (length_map active_key).
  apply NoDup_constant_le1 with (a := (p, false)).
  - apply NoDup_map_filter, Hkey.
  - intros k Hin. apply in_map_iff in Hin. destruct Hin as [r [<- Hr]].
    apply filter_In in Hr. destruct Hr as [_ Hr].
    apply andb_true_iff in Hr. destruct Hr as [Hp Hv].
    apply String.eqb_eq in Hp. apply negb_true_iff in Hv.
    unfold active_key. congruence.
Qed.

Lemma live_rows_single (t : otp_storage) (p : string) (v : otp_row) :
  valid_table t -> newest (live_rows t p) = Some v -> live_rows t p = [v].
Proof.
  intros Hv Hn. pose proof (live_rows_le1 t p Hv) as Hle.
  destruct (live_rows t p) as [|x [|y l]]; simpl in *; try discriminate;
    try lia.
  inversion Hn; reflexivity.
Qed.

Lemma valid_delete_id (t : otp_storage) (i : uuid) :
  valid_table t -> valid_table (delete_id t i).
Proof. intros [H1 H2]; split; apply NoDup_map_filter; assumption. Qed.

Lemma valid_delete_phone (t : otp_storage) (p : string) :
  valid_table t -> valid_table (delete_phone t p).
Proof. intros [H1 H2]; split; apply NoDup_map_filter; assumption. Qed.

Lemma valid_increment (t : otp_storage) (i : uuid) :
  valid_table t -> valid_table (increment_attempts t i).
Proof.
  intros [H1 H2]. unfold valid_table, increment_attempts.
  rewrite !map_map.
  rewrite (map_ext (fun r => id (if N.eqb (id r) i then bump r else r)) id),
          (map_ext (fun r => active_key (if N.eqb (id r) i then bump r else r))
                   active_key); auto;
    intros r; destruct (N.eqb (id r) i); reflexivity.
Qed.

Lemma valid_insert (t t' : otp_storage) (r : otp_row) :
  valid_table t -> insert_row t r = Ok t' -> valid_table t'.
Proof.
  intros [H1 H2]. unfold insert_row.
  destruct (existsb (fun x => N.eqb (id x) (id r)) t) eqn:E1; [discriminate|].
  destruct (existsb (fun x => same_active_key x r) t) eqn:E2; [discriminate|].
  intros H; inversion H; subst t'; clear H.
  split; rewrite map_app; simpl.
  - apply NoDup_app; [assumption | constructor; [intros []|constructor] |].
    intros a Hin [<-|[]]. apply in_map_iff in Hin.
    destruct Hin as [x [Hx Hin]].
    assert (Hex : existsb (fun x => N.eqb (id x) (id r)) t = true).
    { apply existsb_exists. exists x. split; [assumption|].
      apply N.eqb_eq; assumption. }
    congruence.
  - apply NoDup_app; [assumption | constructor; [intros []|constructor] |].
    intros a Hin [<-|[]]. apply in_map_iff in Hin.
    destruct Hin as [x [Hx Hin]].
    assert (Hex : existsb (fun x => same_active_key x r) t = true).
    { apply existsb_exists. exists x. split; [assumption|].
      unfold active_key in Hx. inversion Hx as [[Hp Hv]].
      unfold same_active_key. rewrite Hp, Hv, String.eqb_refl.
      destruct (verified r); reflexivity. }
    congruence.
Qed.

End TableLemmas.

(** ** [create_otp_entry] *)

Section CreateLemmas.

Variables (t : otp_storage) (now : timestamptz) (p code : string)
          (mins : Z) (ip : option string) (u : uuid).

Local Abbreviation row := (new_row now p code mins ip u).

Lemma delete_phone_no_rows : rows_of (delete_phone t p) p = [].
Proof.
  unfold rows_of, delete_phone. apply filter_none.
  intros x Hin. apply filter_In in Hin. destruct Hin as [_ Hx].
  apply negb_true_iff in Hx. exact Hx.
Qed.

Lemma rows_of_app (a b : otp_storage) (q : string) :
  rows_of (a ++ b) q = rows_of a q ++ rows_of b q.
Proof. apply filter_app. Qed.

Lemma insert_after_delete_unique :
  existsb (fun x => same_active_key x row) (delete_phone t p) = false.
Proof.
  apply not_true_is_false. intros H. apply existsb_exists in H.
  destruct H as [x [Hin Hk]]. apply filter_In in Hin. destruct Hin as [_ Hx].
  apply andb_true_iff in Hk. destruct Hk as [Hk _]. simpl in Hk.
  rewrite Hk in Hx. discriminate.
Qed.

Lemma create_ok_shape (t' : otp_storage) (i : uuid) :
  create_otp_entry t now p code mins ip u = (t', Ok i) ->
  i = u /\ t' = delete_phone t p ++ [row].
Proof.
  unfold create_otp_entry, insert_row.
  rewrite insert_after_delete_unique.
  destruct (existsb _ (delete_phone t p)); intros H; inversion H; auto.
Qed.

Lemma create_err_shape (t' : otp_storage) (e : sql_error) :
  create_otp_entry t now p code mins ip u = (t', Err e) ->
  t' = t /\ e = unique_violation "otp_storage_pkey" /\
  exists x, In x t /\ id x = u /\ phone_number x <> p.
Proof.
  unfold create_otp_entry, insert_row.
  rewrite insert_after_delete_unique.
  destruct (existsb (fun x => N.eqb (id x) (id row)) (delete_phone t p)) eqn:E;
    intros H; inversion H; subst. split; [reflexivity|split; [reflexivity|]].
  apply existsb_exists in E. destruct E as [x [Hin Hid]].
  apply filter_In in Hin. destruct Hin as [Hin Hp].
  exists x. split; [assumption|]. split.
  - apply N.eqb_eq in Hid. exact Hid.
  - apply negb_true_iff in Hp. apply String.eqb_neq. exact Hp.
Qed.

Lemma create_valid :
  valid_table t ->
  valid_table (fst (create_otp_entry t now p code mins ip u)).
Proof.
  intros Hv. unfold create_otp_entry.
  destruct (insert_row (delete_phone t p) row) as [t2|e] eqn:E; simpl;
    [|assumption].
  eapply valid_insert; [|exact E]. apply valid_delete_phone, Hv.
Qed.

Lemma create_rows_of (t' : otp_storage) (i : uuid) :
  create_otp_entry t now p code mins ip u = (t', Ok i) ->
  rows_of t' p = [row].
Proof.
  intros H. apply create_ok_shape in H. destruct H as [_ ->].
  rewrite rows_of_app, delete_phone_no_rows. simpl.
  unfold rows_of. simpl. rewrite String.eqb_refl. reflexivity.
Qed.

Lemma create_live_rows (t' : otp_storage) (i : uuid) :
  create_otp_entry t now p code mins ip u = (t', Ok i) ->
  live_rows t' p = [row].
Proof.
  intros H. apply create_ok_shape in H. destruct H as [_ ->].
  unfold live_rows. rewrite filter_app. simpl.
  rewrite String.eqb_refl. simpl.
  rewrite filter_none; [reflexivity|].
  intros x Hin. apply filter_In in Hin. destruct Hin as [_ Hx].
  apply negb_true_iff in Hx. rewrite Hx. reflexivity.
Qed.

End CreateLemmas.

(** ** [verify_otp] *)

Section VerifyLemmas.

Variables (t : otp_storage) (p : string) (v : otp_row).
Hypothesis Hlive : newest (live_rows t p) = Some v.

Lemma verify_expired (now : timestamptz) (c : string) :
  expires_at v < now ->
  verify_otp t now p c =
    (delete_id t (id v), mk_verify_result false msg_expired 0).
Proof.
  intros H. unfold verify_otp. rewrite Hlive.
  apply Z.ltb_lt in H. rewrite H. reflexivity.
Qed.

Lemma verify_exhausted (now : timestamptz) (c : string) :
  now <= expires_at v -> 5 <= attempts v ->
  verify_otp t now p c =
    (delete_id t (id v), mk_verify_result false msg_max_attempts 0).
Proof.
  intros H1 H2. unfold verify_otp. rewrite Hlive.
  apply Z.ltb_ge in H1. rewrite H1.
  apply Z.geb_le in H2. rewrite H2. reflexivity.
Qed.

Lemma verify_match (now : timestamptz) (c : string) :
  now <= expires_at v -> attempts v < 5 -> otp_code v = c ->
  verify_otp t now p c =
    (delete_id (increment_attempts t (id v)) (id v),
     mk_verify_result true msg_verified (5 - (attempts v + 1))).
Proof.
  intros H1 H2 H3. unfold verify_otp. rewrite Hlive.
  apply Z.ltb_ge in H1. rewrite H1.
  destruct (attempts v >=? 5) eqn:E; [apply Z.geb_le in E; lia|].
  apply String.eqb_eq in H3. rewrite H3. reflexivity.
Qed.

Lemma verify_mismatch (now : timestamptz) (c : string) :
  now <= expires_at v -> attempts v < 5 -> otp_code v <> c ->
  verify_otp t now p c =
    (increment_attempts t (id v),
     mk_verify_result false msg_invalid (5 - (attempts v + 1))).
Proof.
  intros H1 H2 H3. unfold verify_otp. rewrite Hlive.
  apply Z.ltb_ge in H1. rewrite H1.
  destruct (attempts v >=? 5) eqn:E; [apply Z.geb_le in E; lia|].
  apply String.eqb_neq in H3. rewrite H3. reflexivity.
Qed.

Lemma live_rows_increment (i : uuid) :
  live_rows (increment_attempts t i) p =
  map (fun r => if N.eqb (id r) i then bump r else r) (live_rows t p).
Proof.
  unfold live_rows, increment_attempts. apply filter_map_commute.
  intros x. destruct (N.eqb (id x) i); reflexivity.
Qed.

Hypothesis Hvalid : valid_table t.

Lemma live_rows_delete_id : live_rows (delete_id t (id v)) p = [].
Proof.
  unfold live_rows, delete_id. rewrite filter_comm.
  fold (live_rows t p). rewrite (live_rows_single t p v Hvalid Hlive).
  simpl. rewrite N.eqb_refl. reflexivity.
Qed.

Lemma live_rows_bumped :
  live_rows (increment_attempts t (id v)) p = [bump v].
Proof.
  rewrite live_rows_increment, (live_rows_single t p v Hvalid Hlive).
  simpl. rewrite N.eqb_refl. reflexivity.
Qed.

Lemma live_rows_consumed :
  live_rows (delete_id (increment_attempts t (id v)) (id v)) p = [].
Proof.
  unfold live_rows at 1, delete_id. rewrite filter_comm.
  fold (live_rows (increment_attempts t (id v)) p).
  rewrite live_rows_bumped. simpl. rewrite N.eqb_refl. reflexivity.
Qed.

End VerifyLemmas.

Lemma verify_no_live (t : otp_storage) (now : timestamptz) (p c : string) :
  live_rows t p = [] ->
  verify_otp t now p c = (t, mk_verify_result false msg_no_otp 0).
Proof. intros H. unfold verify_otp. rewrite H. reflexivity. Qed.

Lemma stored_delete_id (t : otp_storage) (i : uuid) :
  stored (delete_id t i) i = false.
Proof.
  apply not_true_is_false. intros H. apply existsb_exists in H.
  destruct H as [x [Hin Hx]]. apply filter_In in Hin.
  destruct Hin as [_ Hn]. rewrite Hx in Hn. discriminate.
Qed.

Lemma stored_increment (t : otp_storage) (i j : uuid) :
  stored (increment_attempts t i) j = stored t j.
Proof.
  unfold stored, increment_attempts.
  induction t as [|x t IH]; simpl; [reflexivity|].
  rewrite IH. destruct (N.eqb (id x) i); reflexivity.
Qed.

Lemma stored_In (t : otp_storage) (r : otp_row) :
  In r t -> stored t (id r) = true.
Proof.
  intros H. apply existsb_exists. exists r. split; [assumption|].
  apply N.eqb_refl.
Qed.

Lemma live_row_In (t : otp_storage) (p : string) (v : otp_row) :
  newest (live_rows t p) = Some v ->
  In v t /\ phone_number v = p /\ verified v = false.
Proof.
  intros H. apply newest_In in H. apply filter_In in H.
  destruct H as [Hin Hq]. apply andb_true_iff in Hq. destruct Hq as [Hp Hq].
  apply String.eqb_eq in Hp. apply negb_true_iff in Hq. auto.
Qed.

(** ** The constraints are invariants

    The empty table satisfies them and the three procedures that write to
    the table preserve them. *)

Lemma verify_valid (t : otp_storage) (now : timestamptz) (p c : string) :
  valid_table t -> valid_table (fst (verify_otp t now p c)).
Proof.
  intros Hv. unfold verify_otp.
  destruct (newest (live_rows t p)) as [v|]; [|exact Hv].
  destruct (expires_at v <? now); [apply valid_delete_id, Hv|].
  destruct (attempts v >=? 5); [apply valid_delete_id, Hv|].
  destruct (String.eqb (otp_code v) c); simpl.
  - apply valid_delete_id, valid_increment, Hv.
  - apply valid_increment, Hv.
Qed.

Lemma cleanup_valid (t : otp_storage) (now : timestamptz) :
  valid_table t -> valid_table (fst (cleanup_expired_otps t now)).
Proof. intros [H1 H2]; split; apply NoDup_map_filter; assumption. Qed.

(** ** Issuance keeps one record per phone *)

Lemma issue_all_valid (cs : list issue_call) (t : otp_storage) :
  valid_table t -> valid_table (issue_all t cs).
Proof.
  revert t. induction cs as [|c cs IH]; simpl; intros t Hv; [assumption|].
  apply IH. apply create_valid, Hv.
Qed.

(** C1. After any sequence of issuances on a table that satisfies its
    constraints, one more [create_otp_entry] leaves at most one
    unverified record per phone.  When it returns, every earlier record of
    the phone (verified or not) is gone and the phone has exactly the one
    new record; the only way it can raise is a collision of the random
    uuid with a row of another phone, and then nothing changes. *)
Theorem create_otp_entry_single_active :
  forall (t : otp_storage) (cs : list issue_call) (c : issue_call) (q : string),
    valid_table t ->
    let t1 := issue_all t cs in
    let row := new_row (ic_now c) (ic_phone c) (ic_code c) (ic_minutes c)
                       (ic_ip c) (ic_uuid c) in
    (List.length (live_rows (fst (issue t1 c)) q) <= 1)%nat /\
    match snd (issue t1 c) with
    | Ok i =>
        i = ic_uuid c /\
        fst (issue t1 c) = delete_phone t1 (ic_phone c) ++ [row] /\
        rows_of (fst (issue t1 c)) (ic_phone c) = [row]
    | Err e =>
        fst (issue t1 c) = t1 /\
        exists x, In x t1 /\ id x = ic_uuid c /\ phone_number x <> ic_phone c
    end.
Proof.
  intros t cs c q Hv t1 row.
  assert (Hv1 : valid_table t1) by (apply issue_all_valid, Hv).
  split.
  - apply live_rows_le1. apply create_valid, Hv1.
  - unfold issue.
    destruct (create_otp_entry t1 (ic_now c) (ic_phone c) (ic_code c)
                (ic_minutes c) (ic_ip c) (ic_uuid c)) as [t2 [i|e]] eqn:E;
      simpl.
    + pose proof (create_rows_of _ _ _ _ _ _ _ _ _ E) as Hrows.
      apply create_ok_shape in E. destruct E as [-> ->]. auto.
    + apply create_err_shape in E. destruct E as [-> [_ Hx]]. auto.
Qed.

(** ** Terminal outcomes of [verify_otp] *)

(** C2. With a live record [v] for the phone, [verify_otp] removes it
    exactly when the outcome is success, expiry or exhausted attempts; a
    mismatch with attempts left keeps the record, with its counter
    incremented.  After a success any further verify for the phone, with
    any code at any time, reports that no OTP is found. *)
Theorem verify_otp_consumes_on_terminal_outcomes :
  forall (t : otp_storage) (now : timestamptz) (p c : string) (v : otp_row),
    valid_table t ->
    newest (live_rows t p) = Some v ->
    let t' := fst (verify_otp t now p c) in
    let r := snd (verify_otp t now p c) in
    (stored t' (id v) = false <->
       success r = true \/ message r = msg_expired
       \/ message r = msg_max_attempts) /\
    (message r = msg_expired <-> expires_at v < now) /\
    (message r = msg_max_attempts <->
       now <= expires_at v /\ 5 <= attempts v) /\
    (success r = true <->
       now <= expires_at v /\ attempts v < 5 /\ otp_code v = c) /\
    (now <= expires_at v -> attempts v < 5 -> otp_code v <> c ->
       r = mk_verify_result false msg_invalid (5 - (attempts v + 1)) /\
       stored t' (id v) = true /\
       newest (live_rows t' p) = Some (bump v)) /\
    (success r = true ->
       forall (now' : timestamptz) (c' : string),
         verify_otp t' now' p c' = (t', mk_verify_result false msg_no_otp 0)).
Proof.
  intros t now p c v Hv Hlive t' r. subst t' r.
  pose proof (live_row_In t p v Hlive) as [Hin _].
  destruct (Z.ltb_spec (expires_at v) now) as [Hexp|Hexp].
  { rewrite (verify_expired t p v Hlive now c Hexp). simpl.
    rewrite stored_delete_id.
    repeat split; auto; try lia; try discriminate; intros; try lia;
      try (exfalso; intuition (lia || discriminate)). }
  destruct (Z.leb_spec 5 (attempts v)) as [Hmax|Hmax].
  { rewrite (verify_exhausted t p v Hlive now c Hexp Hmax). simpl.
    rewrite stored_delete_id.
    repeat split; auto; try lia; try discriminate; intros; try lia;
      try (exfalso; intuition (lia || discriminate)). }
  destruct (String.eqb_spec (otp_code v) c) as [Heq|Hne].
  { rewrite (verify_match t p v Hlive now c Hexp Hmax Heq). simpl.
    rewrite stored_delete_id.
    repeat split; auto; try lia; try discriminate; intros; try lia;
      try (exfalso; intuition (lia || discriminate || congruence)).
    apply verify_no_live. apply live_rows_consumed; assumption. }
  rewrite (verify_mismatch t p v Hlive now c Hexp Hmax Hne). simpl.
  rewrite stored_increment, (stored_In t v Hin).
  rewrite (live_rows_bumped t p v Hlive Hv). simpl.
  repeat split; auto; try lia; try discriminate; intros; try lia;
    try (exfalso; intuition (lia || discriminate || congruence)).
Qed.

(** C7. A verify after [expires_at], with any code, answers "OTP has
    expired" with no attempts left and removes the record; every later
    verify for the phone finds no OTP. *)
Theorem verify_otp_after_expiry :
  forall (t : otp_storage) (now : timestamptz) (p c : string) (v : otp_row),
    valid_table t ->
    newest (live_rows t p) = Some v ->
    expires_at v < now ->
    let t' := fst (verify_otp t now p c) in
    snd (verify_otp t now p c) = mk_verify_result false msg_expired 0 /\
    t' = delete_id t (id v) /\
    stored t' (id v) = false /\
    forall (now' : timestamptz) (c' : string),
      verify_otp t' now' p c' = (t', mk_verify_result false msg_no_otp 0).
Proof.
  intros t now p c v Hv Hlive Hexp t'. subst t'.
  rewrite (verify_expired t p v Hlive now c Hexp). simpl.
  repeat split.
  - apply stored_delete_id.
  - intros now' c'. apply verify_no_live.
    apply live_rows_delete_id; assumption.
Qed.

(** ** Rate limit *)

Lemma live_rows_of_rows (t : otp_storage) (p : string) :
  live_rows t p = filter (fun r => negb (verified r)) (rows_of t p).
Proof.
  unfold live_rows, rows_of. induction t as [|x t IH]; simpl; [reflexivity|].
  destruct (String.eqb (phone_number x) p); simpl; [|assumption].
  destruct (verified x); simpl; rewrite IH; reflexivity.
Qed.

Lemma rows_of_delete_id (t : otp_storage) (p : string) (i : uuid) :
  rows_of (delete_id t i) p = filter (fun r => negb (N.eqb (id r) i)) (rows_of t p).
Proof. unfold rows_of, delete_id. apply filter_comm. Qed.

Lemma rows_of_increment (t : otp_storage) (p : string) (i : uuid) :
  rows_of (increment_attempts t i) p =
  map (fun r => if N.eqb (id r) i then bump r else r) (rows_of t p).
Proof.
  unfold rows_of, increment_attempts. apply filter_map_commute.
  intros x. destruct (N.eqb (id x) i); reflexivity.
Qed.

Lemma rate_limit_no_rows (t : otp_storage) (now : timestamptz) (p : string)
    (w : Z) :
  rows_of t p = [] -> check_otp_rate_limit t now p w = Ok (true, 0).
Proof.
  intros H. unfold check_otp_rate_limit, last_created. rewrite H. reflexivity.
Qed.

(** The integer cast of the elapsed epoch is within half a second of the
    exact difference. *)
Lemma round_half_away_near (us : Z) :
  - 500000 <= us - 1000000 * round_half_away us 1000000 <= 500000.
Proof.
  unfold round_half_away. change (2 * 1000000) with 2000000.
  destruct (Z.leb_spec 0 us) as [H|H].
  - pose proof (Z.div_mod (2 * us + 1000000) 2000000 ltac:(lia)).
    pose proof (Z.mod_pos_bound (2 * us + 1000000) 2000000 ltac:(lia)). lia.
  - pose proof (Z.div_mod (2 * - us + 1000000) 2000000 ltac:(lia)).
    pose proof (Z.mod_pos_bound (2 * - us + 1000000) 2000000 ltac:(lia)). lia.
Qed.

(** C8. Without a record for the phone the limiter allows with no wait.
    Otherwise it takes the greatest [created_at] of the phone's rows,
    subtracts the elapsed whole seconds from the window, and denies with
    that wait exactly when it is positive. *)
Theorem check_otp_rate_limit_spec :
  forall (t : otp_storage) (now : timestamptz) (p : string) (w : Z),
    (rows_of t p = [] -> check_otp_rate_limit t now p w = Ok (true, 0)) /\
    (rows_of t p <> [] ->
     exists r,
       In r (rows_of t p) /\
       (forall r', In r' (rows_of t p) -> created_at r' <= created_at r) /\
       forall elapsed,
         epoch_integer (now - created_at r) = Ok elapsed ->
         in_int4 (w - elapsed) = true ->
         let wait := w - elapsed in
         - 500000 <= (now - created_at r) - 1000000 * elapsed <= 500000 /\
         (wait > 0 -> check_otp_rate_limit t now p w = Ok (false, wait)) /\
         (wait <= 0 -> check_otp_rate_limit t now p w = Ok (true, 0))).
Proof.
  intros t now p w. split; [apply rate_limit_no_rows|].
  intros Hne. destruct (newest (rows_of t p)) as [r|] eqn:En;
    [|apply newest_none in En; contradiction].
  exists r. split; [apply newest_In, En|].
  split; [apply newest_greatest, En|].
  intros elapsed Hel Hin wait.
  unfold check_otp_rate_limit, last_created. rewrite En. simpl.
  rewrite Hel. unfold to_int4. rewrite Hin. fold wait.
  split; [|split].
  - unfold epoch_integer, to_int4 in Hel.
    destruct (in_int4 _); inversion Hel. apply round_half_away_near.
  - intros Hpos. destruct (wait >? 0) eqn:E; [reflexivity|].
    rewrite Z.gtb_ltb in E. apply Z.ltb_ge in E. lia.
  - intros Hle. destruct (wait >? 0) eqn:E; [|reflexivity].
    rewrite Z.gtb_ltb in E. apply Z.ltb_lt in E. lia.
Qed.

(** C10. When the phone's only record is removed by a verify (success,
    expiry or exhausted attempts), the limiter at once allows a new
    issuance with no wait, whatever the window and however recent the
    removed record was. *)
Theorem consumed_otp_clears_rate_limit :
  forall (t : otp_storage) (now : timestamptz) (p c : string) (v : otp_row),
    rows_of t p = [v] ->
    let t' := fst (verify_otp t now p c) in
    let r := snd (verify_otp t now p c) in
    success r = true \/ message r = msg_expired
    \/ message r = msg_max_attempts ->
    rows_of t' p = [] /\
    forall (now' : timestamptz) (w : Z),
      check_otp_rate_limit t' now' p w = Ok (true, 0).
Proof.
  intros t now p c v Hrows t' r Hout.
  assert (Hgone : rows_of t' p = []).
  { subst t' r. unfold verify_otp in *.
    rewrite live_rows_of_rows, Hrows in *. simpl in *.
    destruct (verified v); simpl in *.
    - exfalso. destruct Hout as [H|[H|H]]; discriminate.
    - destruct (expires_at v <? now); simpl in *.
      + rewrite rows_of_delete_id, Hrows. simpl.
        rewrite N.eqb_refl. reflexivity.
      + destruct (attempts v >=? 5); simpl in *.
        * rewrite rows_of_delete_id, Hrows. simpl.
          rewrite N.eqb_refl. reflexivity.
        * destruct (String.eqb (otp_code v) c); simpl in *.
          -- rewrite rows_of_delete_id, rows_of_increment, Hrows. simpl.
             rewrite N.eqb_refl. simpl. rewrite N.eqb_refl. reflexivity.
          -- exfalso. destruct Hout as [H|[H|H]]; discriminate. }
  split; [assumption|].
  intros now' w. apply rate_limit_no_rows, Hgone.
Qed.

(** ** Attempt budget *)

Local Ltac side := simpl; first [lia | congruence].

Lemma wrong_step (t : otp_storage) (p : string) (v : otp_row)
    (now : timestamptz) (code : string) :
  valid_table t ->
  newest (live_rows t p) = Some v ->
  now <= expires_at v -> attempts v < 5 -> otp_code v <> code ->
  verify_otp t now p code =
    (increment_attempts t (id v),
     mk_verify_result false msg_invalid (5 - (attempts v + 1))) /\
  valid_table (increment_attempts t (id v)) /\
  newest (live_rows (increment_attempts t (id v)) p) = Some (bump v).
Proof.
  intros Hv Hlive Hexp Hatt Hne. split; [|split].
  - apply verify_mismatch; assumption.
  - apply valid_increment, Hv.
  - rewrite (live_rows_bumped t p v Hlive Hv). reflexivity.
Qed.

(** C3, as the specification words it, fails on the first number of the
    concrete scenario: after five wrong codes the record is still stored,
    and the sixth call is answered with the exhausted-budget message. *)
Lemma exhaustion_as_specified_fails :
  fresh_unexpired [] Demo.issued (Demo.wrong_calls ++ [(6000000, "000000")]) /\
  all_wrong Demo.issued (Demo.wrong_calls ++ [(6000000, "000000")]) /\
  ~ exhaustion_as_specified [] Demo.issued Demo.wrong_calls (6000000, "000000").
Proof.
  split; [|split].
  - split; [reflexivity|].
    repeat constructor; simpl; unfold minutes_interval; lia.
  - repeat constructor; simpl; discriminate.
  - intros [_ [Hgone _]]. vm_compute in Hgone. discriminate.
Qed.

(** C3, amended.  Five wrong codes against a fresh, unexpired record are
    answered "Invalid OTP code" with 4, 3, 2, 1, 0 attempts remaining; the
    record then still exists with its counter at 5.  The next unexpired
    verify, whatever its code, removes the record and answers "Maximum
    verification attempts exceeded"; only after that does a verify find no
    OTP. *)
Theorem five_wrong_codes_then_exhausted :
  forall (t0 : otp_storage) (c : issue_call)
         (wrong : list (timestamptz * string)),
    valid_table t0 ->
    fresh_unexpired t0 c wrong ->
    all_wrong c wrong ->
    List.length wrong = 5%nat ->
    let p := ic_phone c in
    let t1 := fst (issue t0 c) in
    let t2 := fst (verify_all t1 p wrong) in
    map remaining_attempts (snd (verify_all t1 p wrong)) = [4; 3; 2; 1; 0] /\
    Forall (fun r => success r = false /\ message r = msg_invalid)
           (snd (verify_all t1 p wrong)) /\
    stored t2 (ic_uuid c) = true /\
    (exists v, newest (live_rows t2 p) = Some v /\ attempts v = 5
               /\ id v = ic_uuid c /\ otp_code v = ic_code c) /\
    forall (now6 : timestamptz) (c6 : string),
      now6 <= ic_now c + minutes_interval (ic_minutes c) ->
      let t3 := fst (verify_otp t2 now6 p c6) in
      snd (verify_otp t2 now6 p c6)
        = mk_verify_result false msg_max_attempts 0 /\
      stored t3 (ic_uuid c) = false /\
      forall (now7 : timestamptz) (c7 : string),
        verify_otp t3 now7 p c7 = (t3, mk_verify_result false msg_no_otp 0).
Proof.
  intros t0 c wrong Hv [Hok Htimes] Hwrong Hlen p t1 t2.
  unfold all_wrong in Hwrong.
  destruct wrong as [|[n1 w1] [|[n2 w2] [|[n3 w3] [|[n4 w4] [|[n5 w5] [|]]]]]];
    try discriminate.
  assert (Hv1 : valid_table t1) by (apply create_valid, Hv).
  assert (Hl1 : newest (live_rows t1 p)
                = Some (new_row (ic_now c) p (ic_code c) (ic_minutes c)
                                (ic_ip c) (ic_uuid c))).
  { subst t1 p. unfold issue in *.
    destruct (create_otp_entry t0 (ic_now c) (ic_phone c) (ic_code c)
                (ic_minutes c) (ic_ip c) (ic_uuid c)) as [tt rr] eqn:E.
    simpl in Hok. subst rr. simpl.
    rewrite (create_live_rows _ _ _ _ _ _ _ _ _ E). reflexivity. }
  repeat match goal with
         | H : Forall _ (_ :: _) |- _ => inversion H; subst; clear H
         end.
  simpl in *.
  set (v0 := new_row (ic_now c) p (ic_code c) (ic_minutes c) (ic_ip c)
                     (ic_uuid c)) in *.
  subst t2. simpl.
  destruct (wrong_step t1 p v0 n1 w1 Hv1 Hl1) as [E1 [V1 L1]];
    [side | side | side |].
  rewrite E1.
  destruct (wrong_step _ p _ n2 w2 V1 L1) as [E2 [V2 L2]];
    [side | side | side |].
  rewrite E2.
  destruct (wrong_step _ p _ n3 w3 V2 L2) as [E3 [V3 L3]];
    [side | side | side |].
  rewrite E3.
  destruct (wrong_step _ p _ n4 w4 V3 L3) as [E4 [V4 L4]];
    [side | side | side |].
  rewrite E4.
  destruct (wrong_step _ p _ n5 w5 V4 L4) as [E5 [V5 L5]];
    [side | side | side |].
  rewrite E5. simpl.
  split; [reflexivity|].
  split; [repeat constructor|].
  split.
  { rewrite !stored_increment. simpl.
    apply (stored_In t1 v0). apply (live_row_In t1 p v0 Hl1). }
  split.
  { eexists. split; [exact L5|]. simpl. auto. }
  intros now6 c6 Hnow6. simpl in V5, L5.
  pose proof (verify_exhausted _ p _ L5 now6 c6) as E6. simpl in E6.
  rewrite E6 by lia. simpl.
  split; [reflexivity|]. split; [apply (stored_delete_id _ (ic_uuid c))|].
  intros now7 c7. apply verify_no_live.
  apply (live_rows_delete_id _ p _ L5 V5).
Qed.

(** ** Rounding to a double *)

Section Rounding.
Import Js.

Lemma pow2_divide (a b : Z) : 0 <= a <= b -> (2 ^ a | 2 ^ b).
Proof.
  intros H. exists (2 ^ (b - a)).
  rewrite <- Z.pow_add_r by lia. f_equal. lia.
Qed.

Lemma ulp_shift_le (x k : Z) :
  0 <= k -> x < 2 ^ (k + 53) -> 0 <= ulp_shift x <= k.
Proof.
  intros Hk Hx. unfold ulp_shift.
  destruct (Z.le_gt_cases x 0) as [Hx0|Hx0].
  - rewrite (Z.log2_nonpos x Hx0). lia.
  - assert (Z.log2 x < k + 53) by (apply Z.log2_lt_pow2; lia). lia.
Qed.

Lemma grid_divides (x k Y : Z) :
  0 <= k -> x < 2 ^ (k + 53) -> (2 ^ k | Y) -> (2 ^ ulp_shift x | Y).
Proof.
  intros Hk Hx HY. apply Z.divide_trans with (2 ^ k); [|assumption].
  apply pow2_divide. apply ulp_shift_le; assumption.
Qed.

Lemma grid_pos (x : Z) : 0 < 2 ^ ulp_shift x.
Proof. apply Z.pow_pos_nonneg; [lia|]. unfold ulp_shift. lia. Qed.

(** The result is one of the two neighbours on the grid of [x]; the
    upper one only when [x] is not itself on the grid. *)
Lemma round_even_cases (x : Z) :
  let g := 2 ^ ulp_shift x in
  round_even x = x / g * g \/
  (round_even x = (x / g + 1) * g /\ 0 < x mod g).
Proof.
  intros g. unfold round_even. fold g.
  pose proof (grid_pos x) as Hg. fold g in Hg.
  pose proof (Z.mod_pos_bound x g Hg) as Hr.
  destruct (Z.ltb_spec (2 * (x mod g)) g); [left; reflexivity|].
  destruct (Z.ltb_spec g (2 * (x mod g))); [right; split; [reflexivity|lia]|].
  destruct (Z.even (x / g)); [left; reflexivity|].
  right; split; [reflexivity|lia].
Qed.

Lemma round_even_le (x Y : Z) :
  x <= Y -> (2 ^ ulp_shift x | Y) -> round_even x <= Y.
Proof.
  intros Hle [k Hk].
  pose proof (grid_pos x) as Hg.
  pose proof (Z.div_mod x (2 ^ ulp_shift x) ltac:(lia)) as Hdm.
  pose proof (Z.mod_pos_bound x (2 ^ ulp_shift x) Hg) as Hr.
  set (g := 2 ^ ulp_shift x) in *. set (q := x / g) in *.
  destruct (round_even_cases x) as [->|[-> Hpos]]; fold g; fold q.
  - lia.
  - fold g in Hpos. assert (Hq : q < k).
    { apply Z.mul_lt_mono_pos_r with g; lia. }
    subst Y. apply Z.mul_le_mono_nonneg_r; lia.
Qed.

Lemma round_even_ge (x Y : Z) :
  Y <= x -> (2 ^ ulp_shift x | Y) -> Y <= round_even x.
Proof.
  intros Hle [k Hk].
  pose proof (grid_pos x) as Hg.
  pose proof (Z.div_mod x (2 ^ ulp_shift x) ltac:(lia)) as Hdm.
  pose proof (Z.mod_pos_bound x (2 ^ ulp_shift x) Hg) as Hr.
  set (g := 2 ^ ulp_shift x) in *. set (q := x / g) in *.
  assert (Hq : k <= q).
  { apply Z.lt_succ_r. apply Z.mul_lt_mono_pos_r with g; lia. }
  assert (Hkq : k * g <= q * g) by (apply Z.mul_le_mono_nonneg_r; lia).
  destruct (round_even_cases x) as [->|[-> Hpos]]; fold g; fold q; lia.
Qed.

Lemma round_even_on_grid (x : Z) :
  (2 ^ ulp_shift x | x) -> round_even x = x.
Proof.
  intros Hd. apply Z.le_antisymm.
  - apply round_even_le; [lia|assumption].
  - apply round_even_ge; [lia|assumption].
Qed.

Lemma double_on_grid (x : Z) : round_even x = x -> (2 ^ ulp_shift x | x).
Proof.
  intros H. destruct (round_even_cases x) as [E|[E _]]; rewrite E in H;
    rewrite <- H at 2; apply Z.divide_factor_r.
Qed.

End Rounding.

(** The rounding above and the IEEE 754 specification give the same sum
    on the extreme outcomes and on sixty-four sample outcomes of the
    random source. *)
Example rounding_agrees_with_ieee :
  forallb Ieee.agrees
    ([0; 1; 2; 3; 2 ^ 52; 2 ^ 52 + 1; 2 ^ 53 - 2; 2 ^ 53 - 1]
       ++ Ieee.samples 64 42) = true.
Proof. vm_compute; reflexivity. Qed.

(** ** The generated code *)

Section GeneratedCode.
Import Js SendOtp.

Local Abbreviation A := eps.

Lemma A_pos : 0 < A.
Proof. apply Z.pow_pos_nonneg; lia. Qed.

Lemma one_A : one = 9007199254740992 * A.
Proof.
  unfold one, A. change 1074 with (53 + 1021).
  rewrite Z.pow_add_r by lia. reflexivity.
Qed.

Lemma pow1034_A : 2 ^ 1034 = 8192 * A.
Proof.
  unfold A. change 1034 with (13 + 1021).
  rewrite Z.pow_add_r by lia. reflexivity.
Qed.

Lemma pow1041_A : 2 ^ 1041 = 1048576 * A.
Proof.
  unfold A. change 1041 with (20 + 1021).
  rewrite Z.pow_add_r by lia. reflexivity.
Qed.

Lemma pow1073_A : 2 ^ 1073 = 4503599627370496 * A.
Proof.
  unfold A. change 1073 with (52 + 1021).
  rewrite Z.pow_add_r by lia. reflexivity.
Qed.

Lemma pow1094_A : 2 ^ 1094 = 9444732965739290427392 * A.
Proof.
  unfold A. change 1094 with (73 + 1021).
  rewrite Z.pow_add_r by lia. reflexivity.
Qed.

Lemma divides_1041_one (k : Z) : (2 ^ 1041 | k * one).
Proof.
  apply Z.divide_mul_r. unfold one. apply pow2_divide. lia.
Qed.

(** Below [2^1094], i.e. below the value [2^20], the grid is at most
    [2^1041] units wide. *)
Lemma grid_1041 (x Y : Z) :
  x < 2 ^ 1094 -> (2 ^ 1041 | Y) -> (2 ^ ulp_shift x | Y).
Proof. intros Hx HY. apply (grid_divides x 1041); [lia|exact Hx|exact HY]. Qed.

Lemma product_bounds (u : Z) :
  0 <= u < one ->
  0 <= round_even (u * 900000) <= 900000 * one.
Proof.
  intros [H0 H1].
  pose proof A_pos. pose proof one_A. pose proof pow1094_A.
  split.
  - apply round_even_ge; [lia|apply Z.divide_0_r].
  - apply round_even_le; [lia|].
    apply grid_1041; [lia|apply divides_1041_one].
Qed.

Lemma otp_number_lower (u : Z) : 0 <= u < one -> 100000 <= otp_number u.
Proof.
  intros Hu. pose proof (product_bounds u Hu) as Hy.
  pose proof A_pos. pose proof one_A. pose proof pow1094_A.
  unfold otp_number, floor, add, mul_int, of_int.
  set (y := round_even (u * 900000)) in *.
  apply Z.div_le_lower_bound; [lia|]. rewrite Z.mul_comm.
  apply round_even_ge; [lia|].
  apply grid_1041; [lia|apply divides_1041_one].
Qed.

Lemma pow1093_A : 2 ^ 1093 = 4722366482869645213696 * A.
Proof.
  unfold A. change 1093 with (72 + 1021).
  rewrite Z.pow_add_r by lia. reflexivity.
Qed.

(** The greatest double below 1 is [1 - 2^-53]. *)
Lemma random_le_max (u : Z) : is_random u -> u <= one - A.
Proof.
  intros [[H0 Hr] H1].
  pose proof A_pos. pose proof one_A. pose proof pow1073_A.
  destruct (Z.le_gt_cases u (one - A)) as [Hle|Hgt]; [assumption|exfalso].
  assert (Hlog : Z.log2 u = 1073).
  { apply Z.log2_unique; [lia|]. change (Z.succ 1073) with 1074.
    fold one. lia. }
  apply double_on_grid in Hr. unfold ulp_shift in Hr. rewrite Hlog in Hr.
  change (Z.max 0 (1073 - 52)) with 1021 in Hr. fold A in Hr.
  destruct Hr as [k Hk].
  assert (9007199254740991 < k).
  { apply Z.mul_lt_mono_pos_r with A; lia. }
  assert (k < 9007199254740992).
  { apply Z.mul_lt_mono_pos_r with A; lia. }
  lia.
Qed.

Lemma product_upper (u : Z) :
  is_random u -> round_even (u * 900000) <= 900000 * one - 2 ^ 1041.
Proof.
  intros Hu. pose proof (random_le_max u Hu) as Hmax.
  destruct Hu as [[H0 _] H1].
  pose proof A_pos. pose proof one_A. pose proof pow1041_A.
  pose proof pow1093_A. pose proof pow1094_A.
  set (x := u * 900000).
  destruct (Z.le_gt_cases x (900000 * one - 2 ^ 1041)) as [Hle|Hgt].
  - apply round_even_le; [assumption|].
    apply grid_1041; [lia|].
    apply Z.divide_sub_r; [apply divides_1041_one|apply Z.divide_refl].
  - assert (Hlog : Z.log2 x = 1093).
    { apply Z.log2_unique; [lia|]. change (Z.succ 1093) with 1094. lia. }
    assert (Hq : x / 2 ^ 1041 = 7730941132799999).
    { symmetry.
      apply Z.div_unique with (r := x - (900000 * one - 2 ^ 1041)); lia. }
    assert (Hr : x mod 2 ^ 1041 = x - (900000 * one - 2 ^ 1041)).
    { symmetry. apply Z.mod_unique with (q := 7730941132799999); lia. }
    unfold round_even, ulp_shift. rewrite Hlog.
    change (Z.max 0 (1093 - 52)) with 1041. rewrite Hq, Hr.
    destruct (Z.ltb_spec (2 * (x - (900000 * one - 2 ^ 1041))) (2 ^ 1041));
      lia.
Qed.

Lemma otp_number_upper (u : Z) : is_random u -> otp_number u <= 999999.
Proof.
  intros Hu. pose proof (product_upper u Hu) as Hy.
  destruct Hu as [[H0 _] H1].
  pose proof (product_bounds u (conj H0 H1)) as Hy0.
  pose proof A_pos. pose proof one_A. pose proof pow1041_A.
  pose proof pow1094_A.
  unfold otp_number, floor, add, mul_int, of_int.
  set (y := round_even (u * 900000)) in *.
  assert (Hz : round_even (100000 * one + y) <= 1000000 * one - 2 ^ 1041).
  { apply round_even_le; [lia|].
    apply grid_1041; [lia|].
    apply Z.divide_sub_r; [apply divides_1041_one|apply Z.divide_refl]. }
  assert (round_even (100000 * one + y) / one < 1000000); [|lia].
  apply Z.div_lt_upper_bound; lia.
Qed.

Lemma divides_1041_half (k : Z) : (2 ^ 1041 | k * one + 2 ^ 1073).
Proof.
  apply Z.divide_add_r; [apply divides_1041_one|apply pow2_divide; lia].
Qed.

(** Every number from 100000 to 999999 is produced by some outcome of the
    random source: one close to [(n - 100000 + 1/2) / 900000]. *)
Lemma otp_number_onto (n : Z) :
  100000 <= n <= 999999 ->
  exists u, is_random u /\ (2 ^ 1034 | u) /\ otp_number u = n.
Proof.
  intros Hn.
  pose proof A_pos as HA. pose proof one_A as Hone.
  pose proof pow1034_A as H1034. pose proof pow1041_A as H1041.
  pose proof pow1073_A as H1073. pose proof pow1094_A as H1094.
  set (j := n - 100000).
  set (m := (2 * j + 1) * 1099511627776 / 1800000).
  pose proof (Z.div_mod ((2 * j + 1) * 1099511627776) 1800000 ltac:(lia))
    as Hdm.
  pose proof (Z.mod_pos_bound ((2 * j + 1) * 1099511627776) 1800000
                ltac:(lia)) as Hmod.
  fold m in Hdm.
  assert (Hm : 0 <= m < 1099511627776) by (subst j; lia).
  assert (Hc : j * 9007199254740992 <= m * 7372800000
               <= j * 9007199254740992 + 4503599627370496)
    by (subst j; lia).
  assert (HcA : j * 9007199254740992 * A <= m * 7372800000 * A
                <= (j * 9007199254740992 + 4503599627370496) * A).
  { split; apply Z.mul_le_mono_nonneg_r; lia. }
  assert (HmA : 0 <= m * A < 1099511627776 * A).
  { split; [apply Z.mul_nonneg_nonneg; lia|].
    apply Z.mul_lt_mono_pos_r; lia. }
  exists (m * 2 ^ 1034).
  assert (Hu : 0 <= m * 2 ^ 1034 < one) by lia.
  split; [|split].
  - split; [split; [lia|]|lia].
    apply round_even_on_grid. apply (grid_divides _ 1021); [lia| |].
    + change (1021 + 53) with 1074. fold one. lia.
    + rewrite H1034. fold A. exists (m * 8192). lia.
  - apply Z.divide_factor_r.
  - unfold otp_number, floor, add, mul_int, of_int.
    set (x := m * 2 ^ 1034 * 900000).
    assert (Hx : j * one <= x <= j * one + 2 ^ 1073) by (subst x; lia).
    assert (Hy : j * one <= round_even x <= j * one + 2 ^ 1073).
    { split.
      - apply round_even_ge; [lia|].
        apply grid_1041; [subst j; lia|apply divides_1041_one].
      - apply round_even_le; [lia|].
        apply grid_1041; [subst j; lia|apply divides_1041_half]. }
    set (y := round_even x) in *.
    assert (Hz : n * one <= round_even (100000 * one + y)
                 <= n * one + 2 ^ 1073).
    { split.
      - apply round_even_ge; [subst j; lia|].
        apply grid_1041; [subst j; lia|apply divides_1041_one].
      - apply round_even_le; [subst j; lia|].
        apply grid_1041; [subst j; lia|apply divides_1041_half]. }
    symmetry.
    apply Z.div_unique with (r := round_even (100000 * one + y) - n * one);
      lia.
Qed.

Local Ltac divlia := Z.to_euclidean_division_equations; lia.

Lemma digits_more (fuel : nat) (n : Z) (acc : string) :
  n / 10 <> 0 ->
  digits (S fuel) n acc = digits fuel (n / 10) (String (digit_char (n mod 10)) acc).
Proof.
  intros H. simpl. apply Z.eqb_neq in H. rewrite H. reflexivity.
Qed.

Lemma digits_done (fuel : nat) (n : Z) (acc : string) :
  n / 10 = 0 ->
  digits (S fuel) n acc = String (digit_char (n mod 10)) acc.
Proof.
  intros H. simpl. apply Z.eqb_eq in H. rewrite H. reflexivity.
Qed.

(** A number from 100000 to 999999 prints as its six decimal digits. *)
Lemma toString_six (n : Z) :
  100000 <= n <= 999999 ->
  toString n =
  String (digit_char (n / 100000))
    (String (digit_char (n / 10000 mod 10))
       (String (digit_char (n / 1000 mod 10))
          (String (digit_char (n / 100 mod 10))
             (String (digit_char (n / 10 mod 10))
                (String (digit_char (n mod 10)) ""))))).
Proof.
  intros Hn. unfold toString.
  do 5 (rewrite digits_more by divlia).
  rewrite digits_done by divlia.
  replace (n / 10 / 10 / 10 / 10 / 10 mod 10) with (n / 100000) by divlia.
  replace (n / 10 / 10 / 10 / 10) with (n / 10000) by divlia.
  replace (n / 10 / 10 / 10) with (n / 1000) by divlia.
  replace (n / 10 / 10) with (n / 100) by divlia.
  reflexivity.
Qed.

Lemma digit_char_not_zero (d : Z) : 1 <= d <= 9 -> digit_char d <> "0"%char.
Proof.
  intros Hd.
  assert (Hc : d = 1 \/ d = 2 \/ d = 3 \/ d = 4 \/ d = 5 \/ d = 6 \/ d = 7
               \/ d = 8 \/ d = 9) by lia.
  repeat (destruct Hc as [->|Hc]; [discriminate|]). subst d. discriminate.
Qed.

Lemma digit_char_is_digit (d : Z) : 0 <= d <= 9 -> is_digit (digit_char d) = true.
Proof.
  intros Hd.
  assert (Hc : d = 0 \/ d = 1 \/ d = 2 \/ d = 3 \/ d = 4 \/ d = 5 \/ d = 6
               \/ d = 7 \/ d = 8 \/ d = 9) by lia.
  repeat (destruct Hc as [->|Hc]; [reflexivity|]). subst d. reflexivity.
Qed.

Lemma toString_no_leading_zero (n : Z) (rest : string) :
  100000 <= n <= 999999 -> toString n <> String "0" rest.
Proof.
  intros Hn Heq. rewrite (toString_six n Hn) in Heq.
  injection Heq as Hc _.
  apply (digit_char_not_zero (n / 100000)); [divlia|exact Hc].
Qed.

Lemma toString_six_digits (n : Z) :
  100000 <= n <= 999999 -> six_digits (toString n) = true.
Proof.
  intros Hn. rewrite (toString_six n Hn).
  unfold six_digits. cbn [String.length Nat.eqb all_digits andb].
  rewrite !digit_char_is_digit by divlia. reflexivity.
Qed.

Lemma otp_number_range (u : Z) :
  is_random u -> 100000 <= otp_number u <= 999999.
Proof.
  intros Hu. split; [|apply otp_number_upper, Hu].
  apply otp_number_lower. destruct Hu as [[? _] ?]. lia.
Qed.

(** C5, as stated, fails: "000000" is a six-digit string and no outcome
    of the random source makes the handler generate it. *)
Lemma generate_otp_misses_leading_zero :
  six_digits "000000" = true /\
  ~ (exists u, is_random u /\ generate_otp u = "000000") /\
  ~ covers_all_six_digit_strings.
Proof.
  assert (Hno : ~ (exists u, is_random u /\ generate_otp u = "000000")).
  { intros [u [Hu Hgen]]. revert Hgen. unfold generate_otp.
    apply toString_no_leading_zero, otp_number_range, Hu. }
  split; [reflexivity|]. split; [exact Hno|].
  intros Hall. apply Hno. apply Hall. reflexivity.
Qed.

(** C5, amended.  The generated code is the decimal string of a number
    from 100000 to 999999: six digits, the first never 0.  Every such
    number is the code for some outcome of the random source (one that is
    a multiple of [2^-40], as a generator of 52 or 53 random bits can
    return), and no string with a leading zero ever is. *)
Theorem generate_otp_range :
  forall (u n : Z),
    is_random u ->
    100000 <= n <= 999999 ->
    (100000 <= otp_number u <= 999999 /\
     six_digits (generate_otp u) = true /\
     forall rest, generate_otp u <> String "0" rest) /\
    (exists u', is_random u' /\ (2 ^ 1034 | u')
                /\ generate_otp u' = toString n).
Proof.
  intros u n Hu Hn.
  pose proof (otp_number_range u Hu) as Hr.
  split; [split; [exact Hr|split]|].
  - unfold generate_otp. apply toString_six_digits, Hr.
  - intros rest. unfold generate_otp.
    apply toString_no_leading_zero, Hr.
  - destruct (otp_number_onto n Hn) as [u' [Hu' [Hgrid Hon]]].
    exists u'. split; [exact Hu'|]. split; [exact Hgrid|].
    unfold generate_otp. rewrite Hon. reflexivity.
Qed.

End GeneratedCode.

(** ** Issuance request *)

Section Issuance.
Import Js SendOtp.

Lemma prefix_plus (pre s : string) :
  String.prefix (String "+"%char pre) s = true ->
  startsWith s "+" = true /\ String.eqb s "" = false.
Proof.
  destruct s as [|c s']; [discriminate|].
  unfold startsWith. cbn [String.prefix].
  destruct (ascii_dec "+"%char c) as [E|E]; [|discriminate].
  intros _. split; [destruct s'; reflexivity|reflexivity].
Qed.

Lemma valid_format_plus (phone : string) :
  isValidFormat phone = true ->
  startsWith phone "+" = true /\ String.eqb phone "" = false.
Proof.
  unfold isValidFormat, test_prefix_digits. intros H.
  apply orb_true_iff in H.
  destruct H as [H|H]; apply andb_true_iff in H; destruct H as [H _];
    exact (prefix_plus _ _ H).
Qed.

(** C9. Once [create_otp_entry] has stored the record, a failed
    WhatsApp dispatch changes nothing: the handler keeps the table with
    the new record, answers 200 with [expiresIn = 300], and the stored
    code still verifies until it expires. *)
Theorem notifier_failure_keeps_issuance :
  forall (t t' : otp_storage) (req : request) (w : world) (phone : string)
         (wait : Z) (otpId : uuid),
    String.eqb (method req) "POST" = true ->
    has_body req = true ->
    phoneNumber req = JsString phone ->
    isValidFormat phone = true ->
    check_otp_rate_limit t (now_rate_limit w) phone 15 = Ok (true, wait) ->
    create_otp_entry t (now_create w) phone (generate_otp (random w)) 5
                     (Some (requestIp req)) (random_uuid w) = (t', Ok otpId) ->
    Evolution.success
      (Evolution.sendWhatsAppOTP (evolution w) (fetch w) phone
                                 (generate_otp (random w)) 5) = false ->
    handler t req w
      = (t', mk_response 200 (SuccessBody "OTP sent successfully" 300)) /\
    live_rows t' phone
      = [new_row (now_create w) phone (generate_otp (random w)) 5
                 (Some (requestIp req)) (random_uuid w)] /\
    forall now : timestamptz,
      now <= now_create w + minutes_interval 5 ->
      snd (verify_otp t' now phone (generate_otp (random w)))
        = mk_verify_result true msg_verified 4.
Proof.
  intros t t' req w phone wait otpId Hm Hb Hp Hfmt Hrate Hcreate Hfail.
  destruct (valid_format_plus phone Hfmt) as [Hplus Hne].
  pose proof (create_live_rows _ _ _ _ _ _ _ _ _ Hcreate) as Hlive.
  split; [|split].
  - unfold handler. rewrite Hm, Hb, Hp. cbn [negb falsy].
    rewrite Hne, Hplus, Hfmt. cbn [negb]. rewrite Hrate. cbn [negb].
    rewrite Hcreate, Hfail. reflexivity.
  - exact Hlive.
  - intros now Hnow. unfold verify_otp. rewrite Hlive.
    cbn [newest expires_at attempts otp_code new_row id].
    destruct (Z.ltb_spec (now_create w + minutes_interval 5) now); [lia|].
    rewrite String.eqb_refl. reflexivity.
Qed.

End Issuance.

(** ** Session minting *)

Section Minting.
Import Js Identity VerifyOtp Contract.

Lemma find_update (d : directory) (p : string) (i : N) (pw : string) :
  find (has_phone p) (updateUserById d i pw) =
  option_map (fun u => if N.eqb (user_id u) i then set_password pw u else u)
             (find (has_phone p) d).
Proof.
  unfold updateUserById.
  induction d as [|u d IH]; simpl; [reflexivity|].
  replace (has_phone p (if N.eqb (user_id u) i then set_password pw u else u))
    with (has_phone p u) by (destruct (N.eqb (user_id u) i); reflexivity).
  destruct (has_phone p u); [reflexivity|exact IH].
Qed.

Lemma find_none_existsb (d : directory) (p : string) :
  find (has_phone p) d = None -> existsb (has_phone p) d = false.
Proof.
  induction d as [|u d IH]; simpl; [reflexivity|].
  destruct (has_phone p u); [discriminate|exact IH].
Qed.

(** An account exists: its credential is overwritten and it signs in. *)
Lemma mint_existing (d : directory) (p : string) (w : world) (u : user) :
  find (has_phone p) d = Some u ->
  mintSession d p w =
    (updateUserById d (user_id u) (tempPassword w),
     mk_response 200
       (SuccessBody "OTP verified successfully"
                    (mk_session (token w) (user_id u) p))).
Proof.
  intros Hfind. unfold mintSession, listUsers. fold (has_phone p).
  rewrite Hfind. unfold signInWithPassword. fold (has_phone p).
  rewrite find_update, Hfind. cbn [option_map].
  rewrite N.eqb_refl. cbn [password set_password user_id phone].
  rewrite String.eqb_refl.
  apply find_some in Hfind. destruct Hfind as [_ Hp].
  apply String.eqb_eq in Hp. rewrite Hp. reflexivity.
Qed.

(** No account exists: the handler creates one, then asks to create it
    a second time with the password, which the collaborator refuses. *)
Lemma mint_new (d : directory) (p : string) (w : world) :
  find (has_phone p) d = None ->
  mintSession d p w =
    (d ++ [mk_user (new_user_id w) p None true],
     mk_response 500 (ErrorBody "Internal server error")).
Proof.
  intros Hfind. unfold mintSession, listUsers. fold (has_phone p).
  rewrite Hfind. unfold createUser. fold (has_phone p).
  rewrite (find_none_existsb d p Hfind).
  rewrite existsb_app. cbn [existsb]. unfold has_phone at 2.
  cbn [phone]. rewrite String.eqb_refl, (find_none_existsb d p Hfind).
  reflexivity.
Qed.

Lemma mint_success_inv (d d' : directory) (p : string) (w : world)
    (msg : string) (s : session) :
  mintSession d p w = (d', mk_response 200 (SuccessBody msg s)) ->
  exists u,
    find (has_phone p) d = Some u /\
    d' = updateUserById d (user_id u) (tempPassword w) /\
    s = mk_session (token w) (user_id u) p.
Proof.
  intros H. destruct (find (has_phone p) d) as [u|] eqn:Hfind.
  - rewrite (mint_existing d p w u Hfind) in H.
    exists u. inversion H. auto.
  - rewrite (mint_new d p w Hfind) in H. discriminate.
Qed.

Lemma sign_in_after_update (d : directory) (p : string) (u : user)
    (pw tok : string) :
  find (has_phone p) d = Some u ->
  forall pw',
    signInWithPassword (updateUserById d (user_id u) pw) tok p pw' =
    if String.eqb pw pw' then AuthOk (mk_session tok (user_id u) p)
    else AuthError "Invalid login credentials".
Proof.
  intros Hfind pw'. unfold signInWithPassword. fold (has_phone p).
  rewrite find_update, Hfind. cbn [option_map]. rewrite N.eqb_refl.
  cbn [password set_password user_id phone].
  apply find_some in Hfind. destruct Hfind as [_ Hp].
  apply String.eqb_eq in Hp. rewrite Hp. reflexivity.
Qed.

(** C6, as stated, fails: after a successful mint for the demo account
    the same secret signs in again. *)
Lemma secret_is_not_burned :
  ~ secret_is_burned [Demo.account] Demo.phone (Demo.login_world 0).
Proof.
  intros H.
  destruct (H _ _ _ eq_refl "again") as [e He].
  vm_compute in He. discriminate.
Qed.

(** C6, amended.  After a successful mint the secret is the account's
    stored password and still authenticates: a password sign-in for the
    phone with it succeeds, bound to the same account.  It stops working
    only when a later mint for the phone, with another secret,
    overwrites it. *)
Theorem minted_secret_stays_usable :
  forall (d d' : directory) (p : string) (w : world) (msg : string)
         (s : session),
    mintSession d p w = (d', mk_response 200 (SuccessBody msg s)) ->
    (forall tok,
       signInWithPassword d' tok p (tempPassword w)
       = AuthOk (mk_session tok (session_user_id s) p)) /\
    (exists u, find (has_phone p) d' = Some u /\
               password u = Some (tempPassword w) /\
               user_id u = session_user_id s) /\
    (forall (w' : world) (d'' : directory) (msg' : string) (s' : session),
       tempPassword w' <> tempPassword w ->
       mintSession d' p w' = (d'', mk_response 200 (SuccessBody msg' s')) ->
       forall tok,
         signInWithPassword d'' tok p (tempPassword w)
         = AuthError "Invalid login credentials").
Proof.
  intros d d' p w msg s H.
  destruct (mint_success_inv _ _ _ _ _ _ H) as [u [Hfind [-> ->]]].
  cbn [session_user_id].
  assert (Hfind' : find (has_phone p)
                        (updateUserById d (user_id u) (tempPassword w))
                   = Some (set_password (tempPassword w) u)).
  { rewrite find_update, Hfind. cbn [option_map].
    rewrite N.eqb_refl. reflexivity. }
  split; [|split].
  - intros tok. rewrite (sign_in_after_update d p u _ tok Hfind).
    rewrite String.eqb_refl. reflexivity.
  - exists (set_password (tempPassword w) u). auto.
  - intros w' d'' msg' s' Hne H'.
    destruct (mint_success_inv _ _ _ _ _ _ H') as [u' [Hf [-> _]]].
    intros tok. rewrite (sign_in_after_update _ p u' _ tok Hf).
    apply String.eqb_neq in Hne. rewrite Hne. reflexivity.
Qed.

End Minting.

(** ** The login scenario *)

Section Login.
Import Js Identity VerifyOtp Contract.

Lemma handler_rejected (s : state) (p code : string) (w : world)
    (t' : otp_storage) (r : verify_result) :
  p <> "" -> code <> "" ->
  verify_otp (otps s) (now w) p code = (t', r) ->
  success r = false -> message r <> "" ->
  handler s (post p code) w =
    (mk_state t' (users s),
     mk_response 400 (RejectedBody (message r) (Sql.remaining_attempts r))).
Proof.
  intros Hp Hc Hver Hs Hm. unfold handler, post.
  cbn [method phoneNumber otp falsy text_of].
  apply String.eqb_neq in Hp, Hc, Hm. rewrite Hp, Hc.
  change (negb (String.eqb "POST" "POST")) with false. cbn [orb].
  rewrite Hver, Hs, Hm. reflexivity.
Qed.

Lemma handler_verified (s : state) (p code : string) (w : world)
    (t' : otp_storage) (r : verify_result) :
  p <> "" -> code <> "" ->
  verify_otp (otps s) (now w) p code = (t', r) ->
  success r = true ->
  handler s (post p code) w =
    (mk_state t' (fst (mintSession (users s) p w)),
     snd (mintSession (users s) p w)).
Proof.
  intros Hp Hc Hver Hs. unfold handler, post.
  cbn [method phoneNumber otp falsy text_of].
  apply String.eqb_neq in Hp, Hc. rewrite Hp, Hc.
  change (negb (String.eqb "POST" "POST")) with false. cbn [orb].
  rewrite Hver, Hs. cbn [negb].
  destruct (mintSession (users s) p w). reflexivity.
Qed.

(** C4, as stated, fails on the last number: in the concrete scenario the
    verify with the right code is answered with 3 attempts remaining. *)
Lemma scenario_as_specified_fails :
  ~ scenario_as_specified [] Demo.issued "000000" 1000000 2000000.
Proof.
  intros [_ [_ H]]. vm_compute in H. discriminate.
Qed.

(** C4, amended.  After a fresh issuance, a wrong code is rejected with
    "Invalid OTP code" and 4 attempts remaining.  The right code next is
    verified with 3 attempts remaining, as that call is counted too, and
    the record is consumed; when the phone already has an account, the
    handler answers 200 with a session bound to that account. *)
Theorem login_scenario :
  forall (t0 : otp_storage) (d : directory) (c : issue_call) (wrong : string)
         (w1 w2 : world) (acct : user),
    valid_table t0 ->
    snd (issue t0 c) = Ok (ic_uuid c) ->
    ic_phone c <> "" -> ic_code c <> "" ->
    wrong <> "" -> wrong <> ic_code c ->
    now w1 <= ic_now c + minutes_interval (ic_minutes c) ->
    now w2 <= ic_now c + minutes_interval (ic_minutes c) ->
    find (has_phone (ic_phone c)) d = Some acct ->
    let p := ic_phone c in
    let s1 := mk_state (fst (issue t0 c)) d in
    let r1 := handler s1 (post p wrong) w1 in
    let r2 := handler (fst r1) (post p (ic_code c)) w2 in
    snd (verify_otp (otps s1) (now w1) p wrong)
      = mk_verify_result false msg_invalid 4 /\
    snd r1 = mk_response 400 (RejectedBody "Invalid OTP code" 4) /\
    snd (verify_otp (otps (fst r1)) (now w2) p (ic_code c))
      = mk_verify_result true msg_verified 3 /\
    snd r2 = mk_response 200
               (SuccessBody "OTP verified successfully"
                            (mk_session (token w2) (user_id acct) p)) /\
    live_rows (otps (fst r2)) p = [].
Proof.
  intros t0 d c wrong w1 w2 acct Hv Hok Hp Hcode Hw Hne Hn1 Hn2 Hacct p s1.
  set (t1 := fst (issue t0 c)).
  set (v0 := new_row (ic_now c) p (ic_code c) (ic_minutes c) (ic_ip c)
                     (ic_uuid c)).
  assert (Hv1 : valid_table t1) by (apply create_valid, Hv).
  assert (Hl1 : newest (live_rows t1 p) = Some v0).
  { subst t1 p v0. unfold issue in *.
    destruct (create_otp_entry t0 (ic_now c) (ic_phone c) (ic_code c)
                (ic_minutes c) (ic_ip c) (ic_uuid c)) as [tt rr] eqn:E.
    simpl in Hok. subst rr. simpl.
    rewrite (create_live_rows _ _ _ _ _ _ _ _ _ E). reflexivity. }
  destruct (wrong_step t1 p v0 (now w1) wrong Hv1 Hl1) as [E1 [V1 L1]];
    [simpl; lia | simpl; lia | simpl; congruence |].
  change (5 - (attempts v0 + 1)) with 4 in E1.
  pose proof (verify_match _ p _ L1 (now w2) (ic_code c)) as E2.
  change (5 - (attempts (bump v0) + 1)) with 3 in E2.
  specialize (E2 Hn2 ltac:(simpl; lia) eq_refl).
  intros r1 r2.
  assert (Hr1 : r1 = (mk_state (increment_attempts t1 (id v0)) d,
                      mk_response 400 (RejectedBody "Invalid OTP code" 4))).
  { subst r1 s1. fold t1.
    rewrite (handler_rejected (mk_state t1 d) p wrong w1 _ _ Hp Hw E1);
      [reflexivity | reflexivity | discriminate]. }
  assert (Hr2 : r2 = (mk_state
                        (delete_id
                           (increment_attempts
                              (increment_attempts t1 (id v0)) (id (bump v0)))
                           (id (bump v0)))
                        (updateUserById d (user_id acct) (tempPassword w2)),
                      mk_response 200
                        (SuccessBody "OTP verified successfully"
                           (mk_session (token w2) (user_id acct) p)))).
  { subst r2. rewrite Hr1. cbn [fst].
    rewrite (handler_verified (mk_state (increment_attempts t1 (id v0)) d)
               p (ic_code c) w2 _ _ Hp Hcode E2 eq_refl).
    cbn [users]. rewrite (mint_existing d p w2 acct Hacct). reflexivity. }
  rewrite Hr2, Hr1. cbn [fst snd otps]. subst s1. cbn [otps]. fold t1.
  rewrite E1, E2. cbn [snd].
  repeat split.
  apply (live_rows_consumed _ p _ L1 V1).
Qed.

End Login.

(** * Instances

    Each theorem above that has premises, applied to a concrete input. *)

Lemma valid_empty : valid_table [].
Proof. split; constructor. Defined.

Lemma valid_demo_table : valid_table Demo.table.
Proof.
  split; (constructor; [intros []|constructor]).
Defined.

Lemma create_otp_entry_single_active_witness :
  valid_table [] /\
  (List.length
     (live_rows (fst (issue (issue_all [] [Demo.issued]) Demo.reissue))
                Demo.phone) <= 1)%nat.
Proof.
  split; [exact valid_empty|].
  exact (proj1 (create_otp_entry_single_active
                  [] [Demo.issued] Demo.reissue Demo.phone
                  valid_empty)).
Defined.

Lemma verify_otp_consumes_on_terminal_outcomes_witness :
  valid_table Demo.table /\
  newest (live_rows Demo.table Demo.phone) = Some Demo.row /\
  (stored (fst (verify_otp Demo.table 1000000 Demo.phone "482913")) 1%N = false
   <-> success (snd (verify_otp Demo.table 1000000 Demo.phone "482913")) = true
       \/ message (snd (verify_otp Demo.table 1000000 Demo.phone "482913"))
          = msg_expired
       \/ message (snd (verify_otp Demo.table 1000000 Demo.phone "482913"))
          = msg_max_attempts).
Proof.
  split; [exact valid_demo_table|]. split; [reflexivity|].
  exact (proj1 (verify_otp_consumes_on_terminal_outcomes
                  Demo.table 1000000 Demo.phone "482913" Demo.row
                  valid_demo_table eq_refl)).
Defined.

Lemma verify_otp_after_expiry_witness :
  valid_table Demo.table /\
  newest (live_rows Demo.table Demo.phone) = Some Demo.row /\
  expires_at Demo.row < 300000001 /\
  snd (verify_otp Demo.table 300000001 Demo.phone "482913")
  = mk_verify_result false msg_expired 0.
Proof.
  split; [exact valid_demo_table|]. split; [reflexivity|].
  split; [reflexivity|].
  exact (proj1 (verify_otp_after_expiry
                  Demo.table 300000001 Demo.phone "482913" Demo.row
                  valid_demo_table eq_refl eq_refl)).
Defined.

Lemma check_otp_rate_limit_spec_witness :
  rows_of Demo.table Demo.phone <> [] /\
  epoch_integer (5000000 - created_at Demo.row) = Ok 5 /\
  in_int4 (15 - 5) = true /\
  check_otp_rate_limit Demo.table 5000000 Demo.phone 15 = Ok (false, 10).
Proof.
  assert (Hne : rows_of Demo.table Demo.phone <> []) by discriminate.
  split; [exact Hne|]. split; [reflexivity|]. split; [reflexivity|].
  destruct (proj2 (check_otp_rate_limit_spec Demo.table 5000000 Demo.phone 15)
                  Hne) as [r [Hin [_ Hr]]].
  destruct Hin as [<-|[]].
  destruct (Hr 5 eq_refl eq_refl) as [_ [Hdeny _]].
  apply Hdeny. reflexivity.
Defined.

Lemma consumed_otp_clears_rate_limit_witness :
  rows_of Demo.table Demo.phone = [Demo.row] /\
  success (snd (verify_otp Demo.table 1000000 Demo.phone "482913")) = true /\
  check_otp_rate_limit
    (fst (verify_otp Demo.table 1000000 Demo.phone "482913"))
    1000001 Demo.phone 15 = Ok (true, 0).
Proof.
  split; [reflexivity|]. split; [reflexivity|].
  exact (proj2 (consumed_otp_clears_rate_limit
                  Demo.table 1000000 Demo.phone "482913" Demo.row
                  eq_refl (or_introl eq_refl))
               1000001 15).
Defined.

Lemma five_wrong_codes_then_exhausted_witness :
  valid_table [] /\
  fresh_unexpired [] Demo.issued Demo.wrong_calls /\
  all_wrong Demo.issued Demo.wrong_calls /\
  List.length Demo.wrong_calls = 5%nat /\
  map remaining_attempts
      (snd (verify_all (fst (issue [] Demo.issued))
                       (ic_phone Demo.issued) Demo.wrong_calls))
  = [4; 3; 2; 1; 0].
Proof.
  assert (Hf : fresh_unexpired [] Demo.issued Demo.wrong_calls).
  { split; [reflexivity|]. repeat constructor; discriminate. }
  assert (Hw : all_wrong Demo.issued Demo.wrong_calls).
  { repeat constructor; discriminate. }
  split; [exact valid_empty|]. split; [exact Hf|]. split; [exact Hw|].
  split; [reflexivity|].
  exact (proj1 (five_wrong_codes_then_exhausted
                  [] Demo.issued Demo.wrong_calls
                  valid_empty Hf Hw eq_refl)).
Defined.

Lemma random_zero : Js.is_random 0.
Proof. split; [split; [lia|reflexivity]|reflexivity]. Defined.

Lemma generate_otp_range_witness :
  Js.is_random 0 /\ 100000 <= 482913 <= 999999 /\
  SendOtp.six_digits (SendOtp.generate_otp 0) = true /\
  exists u', Js.is_random u' /\ (2 ^ 1034 | u')
             /\ SendOtp.generate_otp u' = Js.toString 482913.
Proof.
  assert (Hn : 100000 <= 482913 <= 999999) by lia.
  split; [exact random_zero|]. split; [exact Hn|].
  destruct (generate_otp_range 0 482913 random_zero Hn) as [[_ [Hsix _]] Hex].
  split; [exact Hsix|exact Hex].
Defined.

Lemma notifier_failure_keeps_issuance_witness :
  SendOtp.isValidFormat Demo.phone = true /\
  check_otp_rate_limit [] 0 Demo.phone 15 = Ok (true, 0) /\
  create_otp_entry [] 0 Demo.phone Demo.send_code 5 (Some "unknown") 1%N
  = (Demo.sent_table, Ok 1%N) /\
  Evolution.success
    (Evolution.sendWhatsAppOTP (SendOtp.evolution Demo.send_world)
                               (SendOtp.fetch Demo.send_world)
                               Demo.phone Demo.send_code 5) = false /\
  SendOtp.handler [] Demo.send_request Demo.send_world
  = (Demo.sent_table,
     SendOtp.mk_response 200 (SendOtp.SuccessBody "OTP sent successfully" 300)).
Proof.
  split; [reflexivity|]. split; [reflexivity|]. split; [reflexivity|].
  split; [reflexivity|].
  exact (proj1 (notifier_failure_keeps_issuance
                  [] Demo.sent_table Demo.send_request Demo.send_world
                  Demo.phone 0 1%N
                  eq_refl eq_refl eq_refl eq_refl eq_refl eq_refl eq_refl)).
Defined.

Lemma login_scenario_witness :
  snd (issue [] Demo.issued) = Ok 1%N /\
  find (Identity.has_phone Demo.phone) [Demo.account] = Some Demo.account /\
  snd Demo.after_wrong
  = VerifyOtp.mk_response 400 (VerifyOtp.RejectedBody "Invalid OTP code" 4) /\
  snd (verify_otp (VerifyOtp.otps (fst Demo.after_wrong)) 2000000
                  Demo.phone "482913")
  = mk_verify_result true msg_verified 3 /\
  snd Demo.after_right
  = VerifyOtp.mk_response 200
      (VerifyOtp.SuccessBody "OTP verified successfully"
         (Identity.mk_session "token" 7 Demo.phone)).
Proof.
  split; [reflexivity|]. split; [reflexivity|].
  destruct (login_scenario
              [] [Demo.account] Demo.issued "000000"
              (Demo.login_world 1000000) (Demo.login_world 2000000)
              Demo.account valid_empty eq_refl)
    as [_ [H1 [H2 [H3 _]]]];
    try discriminate; try reflexivity.
  split; [exact H1|]. split; [exact H2|exact H3].
Defined.

Lemma minted_secret_stays_usable_witness :
  VerifyOtp.mintSession [Demo.account] Demo.phone (Demo.login_world 0)
  = (Demo.minted,
     VerifyOtp.mk_response 200
       (VerifyOtp.SuccessBody "OTP verified successfully"
          (Identity.mk_session "token" 7 Demo.phone))) /\
  Identity.signInWithPassword Demo.minted "again" Demo.phone
    (VerifyOtp.tempPassword (Demo.login_world 0))
  = Identity.AuthOk (Identity.mk_session "again" 7 Demo.phone).
Proof.
  split; [reflexivity|].
  exact (proj1 (minted_secret_stays_usable
                  [Demo.account] Demo.minted Demo.phone (Demo.login_world 0)
                  "OTP verified successfully"
                  (Identity.mk_session "token" 7 Demo.phone) eq_refl)
               "again").
Defined.

(** * Further properties of the stored procedures *)

Section Sweep.

Lemma filter_split_length {A : Type} (q : A -> bool) (l : list A) :
  (List.length (filter q l) + List.length (filter (fun x => negb (q x)) l)
   = List.length l)%nat.
Proof.
  induction l as [|x l IH]; simpl; [reflexivity|].
  destruct (q x); simpl; lia.
Qed.

Lemma filter_idem {A : Type} (q : A -> bool) (l : list A) :
  filter q (filter q l) = filter q l.
Proof.
  apply filter_all. intros x Hin. apply filter_In in Hin. tauto.
Qed.

(** X1. [cleanup_expired_otps] keeps exactly the rows that have not
    expired, in their order, and returns the number of rows it removed;
    run again at the same or an earlier time it removes nothing. *)
Theorem cleanup_expired_otps_removes_expired :
  forall (t : otp_storage) (now now' : timestamptz),
    now' <= now ->
    let t' := fst (cleanup_expired_otps t now) in
    (forall r, In r t' <-> In r t /\ now <= expires_at r) /\
    snd (cleanup_expired_otps t now)
      = Z.of_nat (List.length (filter (fun r => expires_at r <? now) t)) /\
    cleanup_expired_otps t' now' = (t', 0).
Proof.
  intros t now now' Hle t'. subst t'. unfold cleanup_expired_otps.
  cbn [fst snd].
  split; [|split].
  - intros r. rewrite filter_In. rewrite negb_true_iff, Z.ltb_ge. tauto.
  - pose proof (filter_split_length (fun r => expires_at r <? now) t). lia.
  - assert (Hkeep : filter (fun r => negb (expires_at r <? now'))
                           (filter (fun r => negb (expires_at r <? now)) t)
                    = filter (fun r => negb (expires_at r <? now)) t).
    { apply filter_all. intros x Hin. apply filter_In in Hin.
      destruct Hin as [_ Hx]. apply negb_true_iff, Z.ltb_ge in Hx.
      apply negb_true_iff, Z.ltb_ge. lia. }
    rewrite Hkeep. f_equal. lia.
Qed.

Lemma live_rows_filter (k : otp_row -> bool) (t : otp_storage) (p : string) :
  live_rows (filter k t) p = filter k (live_rows t p).
Proof. unfold live_rows. apply filter_comm. Qed.

(** X2. The sweep is no correctness dependency: on a table that
    satisfies its constraints, a verify gives the same success flag and
    the same remaining attempts whether or not [cleanup_expired_otps] ran
    before it.  Only the message can differ: an expired record that the
    sweep already removed is reported as not found. *)
Theorem verify_otp_after_cleanup :
  forall (t : otp_storage) (swept now : timestamptz) (p c : string),
    valid_table t ->
    swept <= now ->
    let r := snd (verify_otp t now p c) in
    let r' := snd (verify_otp (fst (cleanup_expired_otps t swept)) now p c) in
    success r' = success r /\
    remaining_attempts r' = remaining_attempts r /\
    (message r' = message r \/
     (message r = msg_expired /\ message r' = msg_no_otp)).
Proof.
  intros t swept now p c Hv Hle r r'. subst r r'.
  unfold cleanup_expired_otps. cbn [fst].
  set (keep := fun r : otp_row => negb (expires_at r <? swept)).
  pose proof (live_rows_le1 t p Hv) as Hone.
  unfold verify_otp. rewrite live_rows_filter.
  destruct (live_rows t p) as [|v [|w l]]; simpl in Hone; try lia.
  - simpl. auto.
  - cbn [filter]. destruct (keep v) eqn:Hk.
    + cbn [newest].
      destruct (expires_at v <? now); [simpl; auto|].
      destruct (attempts v >=? 5); [simpl; auto|].
      destruct (String.eqb (otp_code v) c); simpl; auto.
    + cbn [newest]. unfold keep in Hk.
      apply negb_false_iff, Z.ltb_lt in Hk.
      destruct (Z.ltb_spec (expires_at v) now); [|lia].
      simpl. auto.
Qed.

End Sweep.

Section Isolation.

Lemma id_unique (t : otp_storage) (x y : otp_row) :
  valid_table t -> In x t -> In y t -> id x = id y -> x = y.
Proof.
  intros [Hid _]. induction t as [|a t IH]; simpl; [contradiction|].
  inversion Hid as [|? ? Hnotin Hrest]; subst.
  intros [->|Hx] [->|Hy] Heq; auto.
  - exfalso. apply Hnotin. rewrite Heq. apply in_map, Hy.
  - exfalso. apply Hnotin. rewrite <- Heq. apply in_map, Hx.
Qed.

Lemma rows_of_In (t : otp_storage) (p : string) (x : otp_row) :
  In x (rows_of t p) <-> In x t /\ phone_number x = p.
Proof. unfold rows_of. rewrite filter_In, String.eqb_eq. tauto. Qed.

(** Rows of another phone do not carry the id of a row of [p]. *)
Lemma other_rows_other_id (t : otp_storage) (p q : string) (v x : otp_row) :
  valid_table t -> q <> p ->
  In v t -> phone_number v = p -> In x (rows_of t q) ->
  N.eqb (id x) (id v) = false.
Proof.
  intros Hv Hne Hin Hp Hx. apply rows_of_In in Hx. destruct Hx as [Hxin Hq].
  apply N.eqb_neq. intros Heq.
  assert (x = v) by (apply (id_unique t); assumption). congruence.
Qed.

Lemma rows_of_delete_other (t : otp_storage) (p q : string) (v : otp_row) :
  valid_table t -> q <> p -> In v t -> phone_number v = p ->
  rows_of (delete_id t (id v)) q = rows_of t q.
Proof.
  intros Hv Hne Hin Hp. rewrite rows_of_delete_id. apply filter_all.
  intros x Hx. rewrite (other_rows_other_id t p q v x); auto.
Qed.

Lemma rows_of_increment_other (t : otp_storage) (p q : string) (v : otp_row) :
  valid_table t -> q <> p -> In v t -> phone_number v = p ->
  rows_of (increment_attempts t (id v)) q = rows_of t q.
Proof.
  intros Hv Hne Hin Hp. rewrite rows_of_increment.
  rewrite <- (map_id (rows_of t q)) at 2. apply map_ext_in.
  intros x Hx. rewrite (other_rows_other_id t p q v x); auto.
Qed.

Lemma verify_rows_of_other (t : otp_storage) (now : timestamptz)
    (p c q : string) :
  valid_table t -> q <> p ->
  rows_of (fst (verify_otp t now p c)) q = rows_of t q.
Proof.
  intros Hv Hne. unfold verify_otp.
  destruct (newest (live_rows t p)) as [v|] eqn:Hlive; [|reflexivity].
  destruct (live_row_In t p v Hlive) as [Hin [Hp _]].
  destruct (expires_at v <? now);
    [apply (rows_of_delete_other t p); assumption|].
  destruct (attempts v >=? 5);
    [apply (rows_of_delete_other t p); assumption|].
  destruct (String.eqb (otp_code v) c); cbn [fst].
  - rewrite rows_of_delete_id, (rows_of_increment_other t p q v),
      <- rows_of_delete_id; auto.
    apply (rows_of_delete_other t p); assumption.
  - apply (rows_of_increment_other t p); assumption.
Qed.

(** X3. A verify for one phone leaves every other phone alone: on a
    table that satisfies its constraints the other phone's rows are
    unchanged, so its next verify and its rate-limit check answer as they
    would have. *)
Theorem verify_otp_leaves_other_phones :
  forall (t : otp_storage) (now now' : timestamptz) (p c q c' : string)
         (w : Z),
    valid_table t ->
    q <> p ->
    let t' := fst (verify_otp t now p c) in
    rows_of t' q = rows_of t q /\
    snd (verify_otp t' now' q c') = snd (verify_otp t now' q c') /\
    check_otp_rate_limit t' now' q w = check_otp_rate_limit t now' q w.
Proof.
  intros t now now' p c q c' w Hv Hne t'.
  pose proof (verify_rows_of_other t now p c q Hv Hne) as Hrows.
  fold t' in Hrows.
  split; [exact Hrows|]. split.
  - unfold verify_otp. rewrite !live_rows_of_rows, Hrows.
    destruct (newest _) as [v|]; [|reflexivity].
    destruct (expires_at v <? now'); [reflexivity|].
    destruct (attempts v >=? 5); [reflexivity|].
    destruct (String.eqb (otp_code v) c'); reflexivity.
  - unfold check_otp_rate_limit, last_created. rewrite Hrows. reflexivity.
Qed.

(** X4. An issuance for one phone leaves every other phone's rows as
    they were, whether it returns or raises. *)
Theorem create_otp_entry_leaves_other_phones :
  forall (t : otp_storage) (now : timestamptz) (p code : string) (mins : Z)
         (ip : option string) (u : uuid) (q : string),
    q <> p ->
    rows_of (fst (create_otp_entry t now p code mins ip u)) q = rows_of t q.
Proof.
  intros t now p code mins ip u q Hne.
  destruct (create_otp_entry t now p code mins ip u) as [t' [i|e]] eqn:E;
    cbn [fst].
  - apply create_ok_shape in E. destruct E as [_ ->].
    rewrite rows_of_app. unfold rows_of at 2. cbn [filter new_row phone_number].
    apply String.eqb_neq in Hne. rewrite String.eqb_sym, Hne.
    rewrite app_nil_r. unfold rows_of, delete_phone. rewrite filter_comm.
    apply filter_all. intros x Hx. apply filter_In in Hx.
    destruct Hx as [_ Hx]. apply String.eqb_eq in Hx.
    apply negb_true_iff, String.eqb_neq. rewrite String.eqb_sym in Hne.
    apply String.eqb_neq in Hne. congruence.
  - apply create_err_shape in E. destruct E as [-> _]. reflexivity.
Qed.

End Isolation.

Section AttemptBudget.
Import Budget.

Lemma range_delete_id (t : otp_storage) (i : uuid) :
  attempts_in_range t -> attempts_in_range (delete_id t i).
Proof.
  unfold attempts_in_range, delete_id. rewrite !Forall_forall.
  intros H x Hx. apply filter_In in Hx. apply H. tauto.
Qed.

Lemma range_increment (t : otp_storage) (p : string) (v : otp_row) :
  valid_table t -> attempts_in_range t ->
  In v t -> attempts v < 5 ->
  attempts_in_range (increment_attempts t (id v)).
Proof.
  unfold attempts_in_range, increment_attempts. rewrite !Forall_forall.
  intros Hv H Hin Hlt y Hy. apply in_map_iff in Hy.
  destruct Hy as [x [<- Hx]].
  destruct (N.eqb_spec (id x) (id v)) as [Heq|_]; [|apply H, Hx].
  assert (x = v) by (apply (id_unique t); assumption). subst x.
  pose proof (H v Hin). simpl. lia.
Qed.

Lemma verify_range (t : otp_storage) (now : timestamptz) (p c : string) :
  valid_table t -> attempts_in_range t ->
  attempts_in_range (fst (verify_otp t now p c)).
Proof.
  intros Hv Hr. unfold verify_otp.
  destruct (newest (live_rows t p)) as [v|] eqn:Hlive; [|exact Hr].
  destruct (live_row_In t p v Hlive) as [Hin _].
  destruct (expires_at v <? now); [apply range_delete_id, Hr|].
  destruct (Z.geb_spec (attempts v) 5); [apply range_delete_id, Hr|].
  destruct (String.eqb (otp_code v) c); cbn [fst].
  - apply range_delete_id, (range_increment t p v); assumption.
  - apply (range_increment t p v); assumption.
Qed.

Lemma create_range (t : otp_storage) (now : timestamptz) (p code : string)
    (mins : Z) (ip : option string) (u : uuid) :
  attempts_in_range t ->
  attempts_in_range (fst (create_otp_entry t now p code mins ip u)).
Proof.
  intros Hr.
  destruct (create_otp_entry t now p code mins ip u) as [t' [i|e]] eqn:E;
    cbn [fst].
  - apply create_ok_shape in E. destruct E as [_ ->].
    unfold attempts_in_range in *. apply Forall_app. split.
    + rewrite Forall_forall in *. intros x Hx. apply filter_In in Hx.
      apply Hr. tauto.
    + constructor; [simpl; lia|constructor].
  - apply create_err_shape in E. destruct E as [-> _]. exact Hr.
Qed.

(** X5. The attempt counters stay between 0 and 5: issuing stores 0 and
    a verify increments only below 5, on a table that satisfies its
    constraints.  So a verify never reports a negative number of
    remaining attempts, nor more than 4. *)
Theorem attempts_stay_in_range :
  forall (t : otp_storage) (now : timestamptz) (p c code : string) (mins : Z)
         (ip : option string) (u : uuid),
    valid_table t ->
    attempts_in_range t ->
    attempts_in_range (fst (verify_otp t now p c)) /\
    attempts_in_range (fst (create_otp_entry t now p code mins ip u)) /\
    0 <= remaining_attempts (snd (verify_otp t now p c)) <= 4.
Proof.
  intros t now p c code mins ip u Hv Hr.
  split; [apply verify_range; assumption|].
  split; [apply create_range; assumption|].
  unfold verify_otp.
  destruct (newest (live_rows t p)) as [v|] eqn:Hlive; [|simpl; lia].
  destruct (live_row_In t p v Hlive) as [Hin _].
  unfold attempts_in_range in Hr. rewrite Forall_forall in Hr.
  pose proof (Hr v Hin).
  destruct (expires_at v <? now); [simpl; lia|].
  destruct (Z.geb_spec (attempts v) 5); [simpl; lia|].
  destruct (String.eqb (otp_code v) c); cbn [snd remaining_attempts]; lia.
Qed.

Local Ltac eval_flags :=
  repeat match goal with
         | |- context [compared (mk_verify_result ?s ?m ?n)] =>
             let b := eval vm_compute in
                        (compared (mk_verify_result s m 0)) in
             change (compared (mk_verify_result s m n)) with b
         end;
  cbn [success].

Lemma verify_all_no_live (calls : list (timestamptz * string))
    (t : otp_storage) (p : string) :
  live_rows t p = [] ->
  filter compared (snd (verify_all t p calls)) = [] /\
  filter success (snd (verify_all t p calls)) = [].
Proof.
  intros Hnone. induction calls as [|[now c] calls IH]; [split; reflexivity|].
  cbn [verify_all]. rewrite (verify_no_live t now p c Hnone).
  destruct (verify_all t p calls) as [t2 rs]. cbn [snd] in *.
  destruct IH as [IH1 IH2]. cbn [filter]. eval_flags.
  split; assumption.
Qed.

Lemma compared_bound (calls : list (timestamptz * string)) :
  forall (t : otp_storage) (p : string),
    valid_table t -> attempts_in_range t ->
    Z.of_nat (List.length (filter compared (snd (verify_all t p calls))))
    <= left_of t p /\
    (List.length (filter success (snd (verify_all t p calls))) <= 1)%nat.
Proof.
  induction calls as [|[now c] calls IH]; intros t p Hv Hr.
  - cbn [verify_all snd filter List.length]. split; [|lia]. unfold left_of.
    destruct (newest (live_rows t p)) as [v|] eqn:Hlive; [|lia].
    destruct (live_row_In t p v Hlive) as [Hin _].
    unfold attempts_in_range in Hr. rewrite Forall_forall in Hr.
    pose proof (Hr v Hin) as Hx. cbv beta in Hx. lia.
  - destruct (newest (live_rows t p)) as [v|] eqn:Hlive.
    2:{ apply newest_none in Hlive.
        destruct (verify_all_no_live ((now, c) :: calls) t p Hlive)
          as [-> ->].
        unfold left_of. rewrite Hlive. cbn [newest List.length]. lia. }
    destruct (live_row_In t p v Hlive) as [Hin _].
    assert (Hrange : 0 <= attempts v <= 5).
    { unfold attempts_in_range in Hr. rewrite Forall_forall in Hr.
      apply (Hr v Hin). }
    assert (Hleft : left_of t p = 5 - attempts v)
      by (unfold left_of; rewrite Hlive; reflexivity).
    rewrite Hleft. cbn [verify_all].
    destruct (Z.ltb_spec (expires_at v) now) as [Hexp|Hexp].
    { rewrite (verify_expired t p v Hlive now c Hexp).
      destruct (verify_all_no_live calls _ p
                  (live_rows_delete_id t p v Hlive Hv)) as [H1 H2].
      destruct (verify_all (delete_id t (id v)) p calls) as [t2 rs].
      cbn [snd] in *. cbn [filter]. eval_flags.
      rewrite H1, H2. cbn [List.length]. lia. }
    destruct (Z.leb_spec 5 (attempts v)) as [Hmax|Hmax].
    { rewrite (verify_exhausted t p v Hlive now c Hexp Hmax).
      destruct (verify_all_no_live calls _ p
                  (live_rows_delete_id t p v Hlive Hv)) as [H1 H2].
      destruct (verify_all (delete_id t (id v)) p calls) as [t2 rs].
      cbn [snd] in *. cbn [filter]. eval_flags.
      rewrite H1, H2. cbn [List.length]. lia. }
    destruct (String.eqb_spec (otp_code v) c) as [Heq|Hne].
    { rewrite (verify_match t p v Hlive now c Hexp Hmax Heq).
      destruct (verify_all_no_live calls _ p
                  (live_rows_consumed t p v Hlive Hv)) as [H1 H2].
      destruct (verify_all _ p calls) as [t2 rs].
      cbn [snd] in *. cbn [filter]. eval_flags.
      rewrite H1, H2. cbn [List.length]. lia. }
    rewrite (verify_mismatch t p v Hlive now c Hexp Hmax Hne).
    specialize (IH (increment_attempts t (id v)) p
                   (valid_increment t (id v) Hv)
                   (range_increment t p v Hv Hr Hin Hmax)).
    unfold left_of in IH. rewrite (live_rows_bumped t p v Hlive Hv) in IH.
    cbn [newest bump attempts] in IH.
    destruct (verify_all _ p calls) as [t2 rs].
    cbn [snd] in *. cbn [filter]. eval_flags.
    destruct IH as [IH1 IH2]. cbn [List.length]. lia.
Qed.

(** X6. Guessing is bounded.  Whatever codes are submitted for a phone,
    at whatever times, between two issuances: at most five of the calls
    get as far as comparing the code with the stored one, and at most one
    succeeds.  (On a table that satisfies its constraints and whose
    counters are in range, as every table built by the procedures is.) *)
Theorem verify_otp_bounds_guessing :
  forall (t : otp_storage) (p : string) (calls : list (timestamptz * string)),
    valid_table t ->
    attempts_in_range t ->
    (List.length (filter compared (snd (verify_all t p calls))) <= 5)%nat /\
    (List.length (filter success (snd (verify_all t p calls))) <= 1)%nat.
Proof.
  intros t p calls Hv Hr.
  destruct (compared_bound calls t p Hv Hr) as [H1 H2].
  split; [|exact H2].
  assert (left_of t p <= 5); [|lia].
  unfold left_of. destruct (newest (live_rows t p)) as [v|] eqn:Hlive; [|lia].
  destruct (live_row_In t p v Hlive) as [Hin _].
  unfold attempts_in_range in Hr. rewrite Forall_forall in Hr.
  pose proof (Hr v Hin) as Hx. cbv beta in Hx. lia.
Qed.

End AttemptBudget.

(** * Further properties of the issuance request *)

Section Cooldown.

Lemma round_half_away_nonneg (us : Z) :
  0 <= us ->
  round_half_away us 1000000 = (2 * us + 1000000) / 2000000.
Proof.
  intros H. unfold round_half_away.
  destruct (Z.leb_spec 0 us); [reflexivity|lia].
Qed.

(** X7. The cooldown after an issuance.  Checked [d] microseconds after
    [create_otp_entry] returned for the phone, the limiter denies exactly
    while the elapsed time, rounded to whole seconds, is below the window,
    that is while [d] is less than the window minus half a second, and it
    reports the window minus the rounded seconds as the wait. *)
Theorem rate_limit_after_issue :
  forall (t t' : otp_storage) (now now' : timestamptz) (p code : string)
         (mins : Z) (ip : option string) (u i : uuid) (w : Z),
    create_otp_entry t now p code mins ip u = (t', Ok i) ->
    0 <= now' - now < 2147483647000000 ->
    0 <= w <= int4_max ->
    let elapsed := round_half_away (now' - now) 1000000 in
    (2 * (now' - now) + 1000000 < 2000000 * w ->
     check_otp_rate_limit t' now' p w = Ok (false, w - elapsed)
     /\ 1 <= w - elapsed <= w) /\
    (2000000 * w <= 2 * (now' - now) + 1000000 ->
     check_otp_rate_limit t' now' p w = Ok (true, 0)).
Proof.
  intros t t' now now' p code mins ip u i w Hcreate Hd Hw elapsed.
  pose proof (create_rows_of _ _ _ _ _ _ _ _ _ Hcreate) as Hrows.
  assert (Hel : elapsed = (2 * (now' - now) + 1000000) / 2000000)
    by (apply round_half_away_nonneg; lia).
  assert (Hrange : 0 <= elapsed <= 2147483647).
  { rewrite Hel. split.
    - apply Z.div_pos; lia.
    - apply Z.lt_succ_r. apply Z.div_lt_upper_bound; lia. }
  unfold int4_max in Hw. change (2 ^ 31 - 1) with 2147483647 in Hw.
  assert (Hcheck : check_otp_rate_limit t' now' p w
                   = if w - elapsed >? 0 then Ok (false, w - elapsed)
                     else Ok (true, 0)).
  { unfold check_otp_rate_limit, last_created. rewrite Hrows.
    cbn [newest option_map created_at new_row].
    unfold epoch_integer, to_int4. fold elapsed.
    assert (H1 : in_int4 elapsed = true).
    { unfold in_int4, int4_min, int4_max. apply andb_true_iff.
      rewrite !Z.leb_le. change (- 2 ^ 31) with (-2147483648).
      change (2 ^ 31 - 1) with 2147483647. lia. }
    assert (H2 : in_int4 (w - elapsed) = true).
    { unfold in_int4, int4_min, int4_max. apply andb_true_iff.
      rewrite !Z.leb_le. change (- 2 ^ 31) with (-2147483648).
      change (2 ^ 31 - 1) with 2147483647. lia. }
    rewrite H1, H2. reflexivity. }
  rewrite Hcheck.
  pose proof (Z.div_mod (2 * (now' - now) + 1000000) 2000000 ltac:(lia))
    as Hdm.
  pose proof (Z.mod_pos_bound (2 * (now' - now) + 1000000) 2000000 ltac:(lia))
    as Hmod.
  rewrite <- Hel in Hdm.
  split; intros Hcmp.
  - assert (Hpos : w - elapsed > 0) by lia.
    destruct (Z.gtb_spec (w - elapsed) 0); [split; [reflexivity|lia]|lia].
  - assert (Hnp : w - elapsed <= 0) by lia.
    destruct (Z.gtb_spec (w - elapsed) 0); [lia|reflexivity].
Qed.

End Cooldown.

Section PhoneFormat.
Import Js SendOtp.

Lemma substring_all (s : string) : substring 0 (String.length s) s = s.
Proof. induction s as [|c s IH]; simpl; [reflexivity|]. rewrite IH. reflexivity. Qed.

Lemma prefix_split (pre s : string) :
  String.prefix pre s = true ->
  s = (pre ++ substring (String.length pre)
                        (String.length s - String.length pre) s)%string.
Proof.
  revert s. induction pre as [|a pre IH]; intros s H.
  - simpl. rewrite Nat.sub_0_r, substring_all. reflexivity.
  - destruct s as [|b s]; [discriminate|]. simpl in H.
    destruct (ascii_dec a b) as [->|]; [|discriminate].
    simpl. f_equal. apply IH, H.
Qed.

Lemma prefix_append (pre rest : string) :
  String.prefix pre (pre ++ rest)%string = true.
Proof.
  induction pre as [|a pre IH]; simpl; [destruct rest; reflexivity|].
  destruct (ascii_dec a a); [exact IH|contradiction].
Qed.

Lemma substring_append (pre rest : string) :
  substring (String.length pre)
            (String.length (pre ++ rest) - String.length pre) (pre ++ rest)
  = rest.
Proof.
  induction pre as [|a pre IH]; simpl.
  - rewrite Nat.sub_0_r. apply substring_all.
  - exact IH.
Qed.

Lemma test_prefix_digits_iff (pre : string) (n : nat) (s : string) :
  test_prefix_digits pre n s = true <->
  exists ds, s = (pre ++ ds)%string /\ String.length ds = n
             /\ all_digits ds = true.
Proof.
  unfold test_prefix_digits. split.
  - intros H. apply andb_true_iff in H. destruct H as [Hp H].
    apply andb_true_iff in H. destruct H as [Hl Hd].
    apply Nat.eqb_eq in Hl.
    eexists. split; [apply prefix_split, Hp|]. split; assumption.
  - intros [ds [-> [Hl Hd]]].
    rewrite prefix_append, substring_append, Hl, Nat.eqb_refl, Hd.
    reflexivity.
Qed.

(** X8. The format check of the issuance request accepts exactly the
    strings made of "+1" or "+91" followed by ten decimal digits, so an
    accepted phone number has 12 or 13 characters. *)
Theorem isValidFormat_iff :
  forall phone : string,
    isValidFormat phone = true <->
    exists ds, String.length ds = 10%nat /\ all_digits ds = true /\
               (phone = ("+1" ++ ds)%string \/ phone = ("+91" ++ ds)%string).
Proof.
  intros phone. unfold isValidFormat. rewrite orb_true_iff.
  rewrite !test_prefix_digits_iff. split.
  - intros [[ds [H1 [H2 H3]]]|[ds [H1 [H2 H3]]]]; exists ds; auto.
  - intros [ds [H2 [H3 [H1|H1]]]]; [left|right]; exists ds; auto.
Qed.

Lemma all_digits_cons (c : ascii) (s : string) :
  is_digit c = true -> all_digits s = true -> all_digits (String c s) = true.
Proof. intros H1 H2. simpl. rewrite H1, H2. reflexivity. Qed.

(** X9. For a phone number the issuance request accepts, the number
    handed to WhatsApp is the phone without its "+": decimal digits only,
    11 or 12 of them. *)
Theorem formatPhoneForWhatsApp_of_valid :
  forall phone : string,
    isValidFormat phone = true ->
    let number := Evolution.formatPhoneForWhatsApp phone in
    phone = String "+"%char number /\
    all_digits number = true /\
    (String.length number = 11%nat \/ String.length number = 12%nat).
Proof.
  intros phone H. apply isValidFormat_iff in H.
  destruct H as [ds [Hl [Hd [->| ->]]]]; cbn [Evolution.formatPhoneForWhatsApp append].
  - split; [reflexivity|]. split; [apply all_digits_cons; [reflexivity|exact Hd]|].
    left. simpl. rewrite Hl. reflexivity.
  - split; [reflexivity|].
    split; [repeat apply all_digits_cons; try reflexivity; exact Hd|].
    right. simpl. rewrite Hl. reflexivity.
Qed.

End PhoneFormat.

Section SendHandler.
Import Js SendOtp.

(** What the handler does once the request is a POST with an accepted
    phone: the rate-limit gate, then the issuance. *)
Lemma handler_accepted (t : otp_storage) (req : request) (w : world)
    (phone : string) :
  String.eqb (method req) "POST" = true ->
  has_body req = true ->
  phoneNumber req = JsString phone ->
  isValidFormat phone = true ->
  handler t req w =
    match check_otp_rate_limit t (now_rate_limit w) phone 15 with
    | Err _ => (t, mk_response 500 (ErrorBody "Failed to check rate limit"))
    | Ok (allowed, wait_seconds) =>
        if negb allowed then
          (t, mk_response 429
                (RateLimitedBody
                   ("Too many OTP requests. Please wait "
                      ++ toString wait_seconds
                      ++ " seconds before trying again.")%string
                   wait_seconds))
        else
          match create_otp_entry t (now_create w) phone
                                 (generate_otp (random w)) 5
                                 (Some (requestIp req)) (random_uuid w) with
          | (t', Err _) =>
              (t', mk_response 500 (ErrorBody "Failed to create OTP"))
          | (t', Ok _) =>
              (t', mk_response 200 (SuccessBody "OTP sent successfully" 300))
          end
    end.
Proof.
  intros Hm Hb Hp Hfmt.
  destruct (valid_format_plus phone Hfmt) as [Hplus Hne].
  unfold handler. rewrite Hm, Hb, Hp. cbn [negb falsy].
  rewrite Hne, Hplus, Hfmt. cbn [negb].
  destruct (check_otp_rate_limit t (now_rate_limit w) phone 15)
    as [[allowed wait]|e]; [|reflexivity].
  destruct (negb allowed); [reflexivity|].
  destruct (create_otp_entry _ _ _ _ _ _ _) as [t' [i|e]]; [|reflexivity].
  destruct (negb _); reflexivity.
Qed.

Lemma requestIp_nonempty (req : request) : requestIp req <> "".
Proof.
  unfold requestIp, nonempty.
  destruct (option_map before_comma (x_forwarded_for req)) as [a|].
  - destruct (String.eqb_spec a ""); [|assumption].
    destruct (remoteAddress req) as [b|]; [|discriminate].
    destruct (String.eqb_spec b ""); [discriminate|assumption].
  - destruct (remoteAddress req) as [b|]; [|discriminate].
    destruct (String.eqb_spec b ""); [discriminate|assumption].
Qed.

(** X10. The issuance request writes to the table only when it answers
    200.  With any other status the table is as it was; with 200 the
    request was a POST for an accepted phone, and the phone's only record
    is the new one: a six-digit code, no attempts, not verified, expiring
    300 seconds after its creation as the response's [expiresIn] says,
    with a request IP that is never empty. *)
Theorem send_handler_writes_only_on_200 :
  forall (t : otp_storage) (req : request) (w : world),
    is_random (random w) ->
    let t' := fst (handler t req w) in
    let resp := snd (handler t req w) in
    (status resp <> 200 -> t' = t) /\
    (status resp = 200 ->
     exists phone row,
       phoneNumber req = JsString phone /\
       isValidFormat phone = true /\
       resp = mk_response 200 (SuccessBody "OTP sent successfully" 300) /\
       rows_of t' phone = [row] /\
       six_digits (otp_code row) = true /\
       attempts row = 0 /\ verified row = false /\
       created_at row = now_create w /\
       expires_at row = created_at row + 300 * 1000000 /\
       exists ip, request_ip row = Some ip /\ ip <> "").
Proof.
  intros t req w Hrand t' resp. subst t' resp.
  destruct (String.eqb (method req) "POST") eqn:Hm;
    [|unfold handler; rewrite Hm; cbn; split; [reflexivity|discriminate]].
  destruct (has_body req) eqn:Hb;
    [|unfold handler; rewrite Hm, Hb; cbn; split; [reflexivity|discriminate]].
  destruct (phoneNumber req) as [|phone] eqn:Hp;
    [unfold handler; rewrite Hm, Hb, Hp; cbn; split; [reflexivity|discriminate]|].
  destruct (isValidFormat phone) eqn:Hfmt.
  2:{ unfold handler. rewrite Hm, Hb, Hp. cbn [negb falsy].
      destruct (String.eqb phone ""); [cbn; split; [reflexivity|discriminate]|].
      destruct (startsWith phone "+");
        [|cbn; split; [reflexivity|discriminate]].
      rewrite Hfmt. cbn. split; [reflexivity|discriminate]. }
  rewrite (handler_accepted t req w phone Hm Hb Hp Hfmt).
  destruct (check_otp_rate_limit t (now_rate_limit w) phone 15)
    as [[allowed wait]|e]; [|cbn; split; [reflexivity|discriminate]].
  destruct allowed; cbn [negb]; [|cbn; split; [reflexivity|discriminate]].
  destruct (create_otp_entry t (now_create w) phone (generate_otp (random w))
              5 (Some (requestIp req)) (random_uuid w)) as [t' [i|e]] eqn:E.
  - cbn [fst snd status]. split; [intros H; contradiction|]. intros _.
    exists phone. eexists.
    split; [reflexivity|]. split; [exact Hfmt|]. split; [reflexivity|].
    split; [apply (create_rows_of _ _ _ _ _ _ _ _ _ E)|].
    cbn [otp_code attempts verified created_at expires_at request_ip new_row].
    split.
    { unfold generate_otp. apply toString_six_digits, otp_number_range, Hrand. }
    repeat split; try reflexivity.
    exists (requestIp req). split; [reflexivity|apply requestIp_nonempty].
  - apply create_err_shape in E. destruct E as [-> _].
    cbn. split; [reflexivity|discriminate].
Qed.

(** X11. A second issuance request for the same phone is turned away
    while the cooldown lasts: if its rate-limit check runs less than 14.5
    seconds after the record of an answered request was created, it is
    answered 429 with a wait between 1 and 15 seconds and the table is
    not touched. *)
Theorem send_handler_cooldown :
  forall (t : otp_storage) (req req' : request) (w w' : world)
         (phone : string),
    status (snd (handler t req w)) = 200 ->
    String.eqb (method req') "POST" = true ->
    has_body req' = true ->
    phoneNumber req = JsString phone ->
    phoneNumber req' = JsString phone ->
    0 <= now_rate_limit w' - now_create w < 14500000 ->
    let t' := fst (handler t req w) in
    exists wait msg,
      1 <= wait <= 15 /\
      handler t' req' w' = (t', mk_response 429 (RateLimitedBody msg wait)).
Proof.
  intros t req req' w w' phone H200 Hm' Hb' Hp Hp' Hd t'. subst t'.
  assert (Hfmt : isValidFormat phone = true /\
                 exists i, create_otp_entry t (now_create w) phone
                             (generate_otp (random w)) 5
                             (Some (requestIp req)) (random_uuid w)
                           = (fst (handler t req w), Ok i)).
  { revert H200. unfold handler.
    destruct (negb (String.eqb (method req) "POST")); [discriminate|].
    destruct (negb (has_body req)); [discriminate|].
    rewrite Hp. cbn [falsy].
    destruct (String.eqb phone ""); [discriminate|].
    destruct (negb (startsWith phone "+")); [discriminate|].
    destruct (isValidFormat phone); [|discriminate]. cbn [negb].
    destruct (check_otp_rate_limit t (now_rate_limit w) phone 15)
      as [[allowed wait]|e]; [|discriminate].
    destruct (negb allowed); [discriminate|].
    destruct (create_otp_entry _ _ _ _ _ _ _) as [t1 [i|e]]; [|discriminate].
    intros _. split; [reflexivity|]. exists i.
    destruct (negb _); reflexivity. }
  destruct Hfmt as [Hfmt [i Hcreate]].
  rewrite (handler_accepted _ req' w' phone Hm' Hb' Hp' Hfmt).
  destruct (rate_limit_after_issue _ _ _ (now_rate_limit w') _ _ _ _ _ _ 15
              Hcreate ltac:(lia) ltac:(unfold int4_max; lia))
    as [Hdeny _].
  destruct (Hdeny ltac:(lia)) as [Hcheck Hwait].
  rewrite Hcheck. cbn [negb].
  eexists. eexists. split; [exact Hwait|reflexivity].
Qed.

End SendHandler.

Section Notifier.
Import Js Evolution Settings.


End Notifier.

(** * Further properties of the verification request *)

Section VerifyHandler.
Import Js Identity VerifyOtp Contract.

Lemma falsy_string (v : js_value) :
  falsy v = false -> exists s, v = JsString s /\ s <> "".
Proof.
  destruct v as [|s]; [discriminate|]. simpl. intros H.
  exists s. split; [reflexivity|]. apply String.eqb_neq, H.
Qed.

(** [verify_otp] answers success only for a live, unexpired record with
    attempts left whose code is the submitted one. *)
Lemma verify_success_inv (t : otp_storage) (now : timestamptz) (p c : string) :
  success (snd (verify_otp t now p c)) = true ->
  exists v, newest (live_rows t p) = Some v /\ otp_code v = c /\
            now <= expires_at v /\ attempts v < 5.
Proof.
  unfold verify_otp.
  destruct (newest (live_rows t p)) as [v|]; [|discriminate].
  destruct (Z.ltb_spec (expires_at v) now); [discriminate|].
  destruct (Z.geb_spec (attempts v) 5); [discriminate|].
  destruct (String.eqb_spec (otp_code v) c); [|discriminate].
  intros _. exists v. auto.
Qed.

(** X13. A session is handed out only for a verified code.  When the
    verification request is answered 200, the submitted code was the
    code of the phone's live, unexpired record with attempts left, that
    record is consumed, and the session in the response is bound to the
    account that already had this phone.  A request answered neither 200
    nor 500 leaves the accounts as they were. *)
Theorem verify_handler_session_requires_code :
  forall (s : state) (req : request) (w : world),
    valid_table (otps s) ->
    let s' := fst (handler s req w) in
    let resp := snd (handler s req w) in
    (status resp = 200 ->
     exists phone code v acct,
       phoneNumber req = JsString phone /\ otp req = JsString code /\
       newest (live_rows (otps s) phone) = Some v /\
       otp_code v = code /\ now w <= expires_at v /\ attempts v < 5 /\
       live_rows (otps s') phone = [] /\
       find (has_phone phone) (users s) = Some acct /\
       resp = mk_response 200
                (SuccessBody "OTP verified successfully"
                   (mk_session (token w) (user_id acct) phone))) /\
    (status resp <> 200 -> status resp <> 500 -> users s' = users s).
Proof.
  intros s req w Hv s' resp. subst s' resp. unfold handler.
  destruct (negb (String.eqb (method req) "POST"));
    [cbn; split; [discriminate|reflexivity]|].
  destruct (falsy (phoneNumber req)) eqn:Hfp;
    [cbn; split; [discriminate|reflexivity]|].
  destruct (falsy (otp req)) eqn:Hfo;
    [cbn; split; [discriminate|reflexivity]|].
  cbn [orb].
  destruct (falsy_string _ Hfp) as [phone [Hp Hpne]].
  destruct (falsy_string _ Hfo) as [code [Hc Hcne]].
  rewrite Hp, Hc. cbn [text_of].
  destruct (verify_otp (otps s) (now w) phone code) as [t' r] eqn:E.
  destruct (success r) eqn:Hs; cbn [negb].
  2:{ cbn. split; [discriminate|reflexivity]. }
  assert (Hs' : success (snd (verify_otp (otps s) (now w) phone code)) = true)
    by (rewrite E; exact Hs).
  destruct (verify_success_inv _ _ _ _ Hs') as [v [Hlive [Hcode [Hexp Hatt]]]].
  rewrite (verify_match _ phone v Hlive (now w) code Hexp Hatt Hcode) in E.
  inversion E; subst t' r; clear E.
  destruct (find (has_phone phone) (users s)) as [acct|] eqn:Hfind.
  - rewrite (mint_existing _ phone w acct Hfind). cbn [fst snd status otps users].
    split; [|intros H; contradiction]. intros _.
    exists phone, code, v, acct.
    repeat split; try assumption; try reflexivity.
    apply (live_rows_consumed _ phone v Hlive Hv).
  - rewrite (mint_new _ phone w Hfind). cbn [fst snd status].
    split; [discriminate|]. intros _ H. contradiction.
Qed.

(** X14. The first login of a phone that has no account fails.  With
    the right code the record is consumed and an account without a
    credential is created, but the handler then asks to create the account
    a second time and answers 500.  As the account now exists, minting a
    session for the phone succeeds from then on, bound to that account. *)
Theorem first_login_of_new_phone :
  forall (s : state) (p code : string) (w w2 : world) (v : otp_row),
    valid_table (otps s) ->
    p <> "" -> code <> "" ->
    newest (live_rows (otps s) p) = Some v ->
    otp_code v = code -> now w <= expires_at v -> attempts v < 5 ->
    find (has_phone p) (users s) = None ->
    let s' := fst (handler s (post p code) w) in
    snd (handler s (post p code) w)
      = mk_response 500 (ErrorBody "Internal server error") /\
    live_rows (otps s') p = [] /\
    users s' = users s ++ [mk_user (new_user_id w) p None true] /\
    snd (mintSession (users s') p w2)
      = mk_response 200
          (SuccessBody "OTP verified successfully"
             (mk_session (token w2) (new_user_id w) p)).
Proof.
  intros s p code w w2 v Hv Hp Hc Hlive Hcode Hexp Hatt Hnone s'. subst s'.
  pose proof (verify_match _ p v Hlive (now w) code Hexp Hatt Hcode) as E.
  rewrite (handler_verified s p code w _ _ Hp Hc E eq_refl).
  rewrite (mint_new _ p w Hnone). cbn [fst snd otps users].
  split; [reflexivity|].
  split; [apply (live_rows_consumed _ p v Hlive Hv)|].
  split; [reflexivity|].
  assert (Hfind : find (has_phone p)
                       (users s ++ [mk_user (new_user_id w) p None true])
                  = Some (mk_user (new_user_id w) p None true)).
  { clear - Hnone. induction (users s) as [|u d IH]; simpl.
    - unfold has_phone. simpl. rewrite String.eqb_refl. reflexivity.
    - simpl in Hnone. destruct (has_phone p u); [discriminate|].
      apply IH, Hnone. }
  rewrite (mint_existing _ p w2 _ Hfind). reflexivity.
Qed.

(** X15. Minting for a phone that has an account resolves to that
    account and creates none: the directory keeps its accounts, ids,
    phones and confirmation flags in place; the only change is the
    password of the accounts with the resolved id. *)
Theorem mint_reuses_account :
  forall (d : directory) (p : string) (w : world) (acct : user),
    find (has_phone p) d = Some acct ->
    let d' := fst (mintSession d p w) in
    map user_id d' = map user_id d /\
    map phone d' = map phone d /\
    map phone_confirm d' = map phone_confirm d /\
    (forall u, In u d -> user_id u <> user_id acct -> In u d') /\
    (forall u', In u' d' -> In u' d \/
                            (user_id u' = user_id acct /\
                             password u' = Some (tempPassword w))).
Proof.
  intros d p w acct Hfind d'. subst d'.
  rewrite (mint_existing d p w acct Hfind). cbn [fst].
  unfold updateUserById. rewrite !map_map.
  split; [|split; [|split; [|split]]].
  - apply map_ext. intros u. destruct (N.eqb _ _); reflexivity.
  - apply map_ext. intros u. destruct (N.eqb _ _); reflexivity.
  - apply map_ext. intros u. destruct (N.eqb _ _); reflexivity.
  - intros u Hin Hne. apply in_map_iff. exists u.
    apply N.eqb_neq in Hne. rewrite Hne. auto.
  - intros u' Hin. apply in_map_iff in Hin. destruct Hin as [u [<- Hin]].
    destruct (N.eqb_spec (user_id u) (user_id acct)); [right|left; exact Hin].
    simpl. auto.
Qed.

End VerifyHandler.

(** * Order notifications *)

Section PhoneCleaning.
Import Js OrderNotify.

Lemma digit_not_ws1 (a : ascii) : is_digit a = true -> ws1 a = false.
Proof.
  unfold is_digit, ws1, byte. intros H. apply andb_true_iff in H.
  destruct H as [H1 H2]. apply Nat.leb_le in H1, H2.
  apply orb_false_iff. split.
  - apply andb_false_iff. right. apply Nat.leb_gt. lia.
  - apply Nat.eqb_neq. lia.
Qed.

Lemma ws2_no_digit (a b : ascii) :
  ws2 a b = true -> is_digit a = false /\ is_digit b = false.
Proof.
  unfold ws2, is_digit, byte. intros H. apply andb_true_iff in H.
  destruct H as [H1 H2]. apply Nat.eqb_eq in H1, H2. rewrite H1, H2.
  split; reflexivity.
Qed.

Lemma ws3_no_digit (a b c : ascii) :
  ws3 a b c = true ->
  is_digit a = false /\ is_digit b = false /\ is_digit c = false.
Proof.
  unfold ws3, is_digit, byte. intros H.
  assert (Ha : (128 <= nat_of_ascii a)%nat /\ (128 <= nat_of_ascii b)%nat
               /\ (128 <= nat_of_ascii c)%nat).
  { repeat match goal with
           | H : (_ || _)%bool = true |- _ =>
               apply orb_true_iff in H; destruct H as [H|H]
           | H : (_ && _)%bool = true |- _ =>
               apply andb_true_iff in H; destruct H
           | H : (_ =? _)%nat = true |- _ => apply Nat.eqb_eq in H
           | H : (_ <=? _)%nat = true |- _ => apply Nat.leb_le in H
           end; lia. }
  destruct Ha as [Ha [Hb Hc]].
  repeat split; apply andb_false_iff; right; apply Nat.leb_gt; lia.
Qed.

Lemma digits_only_remove_whitespace_bounded (n : nat) :
  forall s, (String.length s <= n)%nat ->
            digits_only (remove_whitespace s) = digits_only s.
Proof.
  induction n as [|n IH]; intros s Hlen.
  - destruct s; [reflexivity|simpl in Hlen; lia].
  - destruct s as [|a rest]; [reflexivity|]. simpl in Hlen.
    cbn [remove_whitespace].
    destruct (ws1 a) eqn:H1.
    { cbn [digits_only].
      destruct (is_digit a) eqn:Hd;
        [rewrite (digit_not_ws1 a Hd) in H1; discriminate|].
      apply IH. lia. }
    destruct rest as [|b rest2]; [reflexivity|]. simpl in Hlen.
    destruct (ws2 a b) eqn:H2.
    { destruct (ws2_no_digit a b H2) as [Ha Hb].
      cbn [digits_only]. rewrite Ha, Hb. apply IH. lia. }
    destruct rest2 as [|c rest3].
    { cbn [digits_only]. rewrite (IH (String b EmptyString)) by (simpl; lia).
      reflexivity. }
    simpl in Hlen.
    destruct (ws3 a b c) eqn:H3.
    { destruct (ws3_no_digit a b c H3) as [Ha [Hb Hc]].
      cbn [digits_only]. rewrite Ha, Hb, Hc. apply IH. lia. }
    cbn [digits_only]. rewrite (IH (String b (String c rest3)))
      by (simpl; lia).
    reflexivity.
Qed.

Lemma digits_only_remove_whitespace (s : string) :
  digits_only (remove_whitespace s) = digits_only s.
Proof. apply (digits_only_remove_whitespace_bounded (String.length s)). lia. Qed.

Lemma digits_only_remove_dashes (s : string) :
  digits_only (remove_dashes s) = digits_only s.
Proof.
  induction s as [|a s IH]; [reflexivity|]. cbn [remove_dashes digits_only].
  destruct (Ascii.eqb_spec a "-"%char) as [->|_].
  - change (is_digit "-"%char) with false. exact IH.
  - cbn [digits_only]. rewrite IH. reflexivity.
Qed.

Lemma digits_only_all_digits (s : string) :
  all_digits s = true -> digits_only s = s.
Proof.
  induction s as [|a s IH]; [reflexivity|]. simpl. intros H.
  apply andb_true_iff in H. destruct H as [Ha Hs].
  rewrite Ha, (IH Hs). reflexivity.
Qed.

Lemma all_digits_digits_only (s : string) : all_digits (digits_only s) = true.
Proof.
  induction s as [|a s IH]; [reflexivity|]. simpl.
  destruct (is_digit a) eqn:Ha; [simpl; rewrite Ha; exact IH|exact IH].
Qed.

Lemma strip_plus_digits (s : string) :
  digits_only (if startsWith s "+"
               then substring 1 (String.length s - 1) s else s)
  = digits_only s.
Proof.
  destruct s as [|a s]; [reflexivity|]. unfold startsWith.
  cbn [String.prefix]. destruct (ascii_dec "+"%char a) as [<-|_].
  - replace (String.prefix "" s) with true by (destruct s; reflexivity).
    cbn [String.length Nat.sub substring]. rewrite Nat.sub_0_r, substring_all.
    reflexivity.
  - reflexivity.
Qed.

(** X16. What [formatPhoneForEvolution] accepts.  A result is never
    empty: it is the decimal digits of the input, in order, and there are
    10 to 15 of them; nothing but white space, dashes and one leading "+"
    was dropped.  No phone and the empty phone give no result. *)
Theorem formatPhoneForEvolution_result :
  forall (p r : string),
    formatPhoneForEvolution (Some p) = Some r ->
    r = digits_only p /\
    all_digits r = true /\
    (10 <= String.length r <= 15)%nat /\
    formatPhoneForEvolution None = None /\
    formatPhoneForEvolution (Some "") = None.
Proof.
  intros p r H. unfold formatPhoneForEvolution in H.
  destruct (String.eqb p ""); [discriminate|].
  set (cleaned := remove_dashes (remove_whitespace p)) in H.
  set (stripped := if startsWith cleaned "+"
                   then substring 1 (String.length cleaned - 1) cleaned
                   else cleaned) in H.
  destruct (ten_to_fifteen_digits stripped) eqn:Hok; [|discriminate].
  cbn [negb] in H. inversion H; subst r; clear H.
  unfold ten_to_fifteen_digits in Hok.
  apply andb_true_iff in Hok. destruct Hok as [Hlen Hd].
  apply andb_true_iff in Hlen. destruct Hlen as [H10 H15].
  apply Nat.leb_le in H10, H15.
  split; [|split; [exact Hd|split; [lia|split; reflexivity]]].
  rewrite <- (digits_only_all_digits stripped Hd). subst stripped.
  rewrite strip_plus_digits. subst cleaned.
  rewrite digits_only_remove_dashes. apply digits_only_remove_whitespace.
Qed.

End PhoneCleaning.

Section PhoneAgreement.
Import Js OrderNotify.

Lemma digit_byte (a : ascii) :
  is_digit a = true -> (48 <= byte a <= 57)%nat.
Proof.
  unfold is_digit, byte. intros H. apply andb_true_iff in H.
  destruct H as [H1 H2]. apply Nat.leb_le in H1, H2. lia.
Qed.

Lemma low_byte_not_ws2 (a b : ascii) : (byte a < 128)%nat -> ws2 a b = false.
Proof.
  intros H. unfold ws2. apply andb_false_iff. left. apply Nat.eqb_neq. lia.
Qed.

Lemma low_byte_not_ws3 (a b c : ascii) :
  (byte a < 128)%nat -> ws3 a b c = false.
Proof.
  intros H. unfold ws3.
  assert (E : forall n, (128 <= n)%nat -> (byte a =? n)%nat = false)
    by (intros n Hn; apply Nat.eqb_neq; lia).
  rewrite !E by lia. reflexivity.
Qed.

(** A character below 128 that is no white space is kept, with whatever
    follows it cleaned. *)
Lemma remove_whitespace_keep (a : ascii) (rest : string) :
  (byte a < 128)%nat -> ws1 a = false ->
  remove_whitespace (String a rest) = String a (remove_whitespace rest).
Proof.
  intros Hlow H1. cbn [remove_whitespace]. rewrite H1.
  destruct rest as [|b rest2]; [reflexivity|].
  rewrite (low_byte_not_ws2 a b Hlow).
  destruct rest2 as [|c rest3]; [reflexivity|].
  rewrite (low_byte_not_ws3 a b c Hlow). reflexivity.
Qed.

Lemma remove_whitespace_digits (s : string) :
  all_digits s = true -> remove_whitespace s = s.
Proof.
  induction s as [|a s IH]; [reflexivity|]. simpl all_digits. intros H.
  apply andb_true_iff in H. destruct H as [Ha Hs].
  pose proof (digit_byte a Ha).
  rewrite remove_whitespace_keep; [|lia|apply digit_not_ws1, Ha].
  rewrite (IH Hs). reflexivity.
Qed.

Lemma remove_dashes_digits (s : string) :
  all_digits s = true -> remove_dashes s = s.
Proof.
  induction s as [|a s IH]; [reflexivity|]. simpl all_digits. intros H.
  apply andb_true_iff in H. destruct H as [Ha Hs].
  cbn [remove_dashes]. destruct (Ascii.eqb_spec a "-"%char) as [->|_];
    [discriminate|]. rewrite (IH Hs). reflexivity.
Qed.

Lemma digits_no_plus (s : string) :
  all_digits s = true -> startsWith s "+" = false.
Proof.
  destruct s as [|a s]; [reflexivity|]. simpl all_digits. intros H.
  apply andb_true_iff in H. destruct H as [Ha _].
  unfold startsWith. cbn [String.prefix].
  destruct (ascii_dec "+"%char a) as [<-|_]; [discriminate|reflexivity].
Qed.

(** X17. [formatPhoneForEvolution] is idempotent: a result it gave is
    accepted again and returned as it is. *)
Theorem formatPhoneForEvolution_idempotent :
  forall (p : option string) (r : string),
    formatPhoneForEvolution p = Some r ->
    formatPhoneForEvolution (Some r) = Some r.
Proof.
  intros [p|] r H; [|discriminate].
  destruct (formatPhoneForEvolution_result p r H) as [_ [Hd [Hlen _]]].
  unfold formatPhoneForEvolution.
  destruct (String.eqb_spec r "") as [->|_]; [simpl in Hlen; lia|].
  rewrite (remove_whitespace_digits r Hd), (remove_dashes_digits r Hd).
  rewrite (digits_no_plus r Hd).
  unfold ten_to_fifteen_digits. rewrite Hd.
  destruct Hlen as [H10 H15]. apply Nat.leb_le in H10, H15.
  rewrite H10, H15. reflexivity.
Qed.

(** X18. The two services agree on the phones of the OTP flow: for a
    phone number the issuance request accepts, [formatPhoneForEvolution]
    gives the number [formatPhoneForWhatsApp] gives. *)
Theorem formatPhoneForEvolution_of_valid :
  forall phone : string,
    SendOtp.isValidFormat phone = true ->
    formatPhoneForEvolution (Some phone)
    = Some (Evolution.formatPhoneForWhatsApp phone).
Proof.
  intros phone H.
  destruct (formatPhoneForWhatsApp_of_valid phone H) as [Hp [Hd Hlen]].
  set (number := Evolution.formatPhoneForWhatsApp phone) in *.
  rewrite Hp. unfold formatPhoneForEvolution.
  change (String.eqb (String "+"%char number) "") with false. cbv iota.
  rewrite remove_whitespace_keep; [|cbv; lia|reflexivity].
  rewrite (remove_whitespace_digits number Hd).
  cbn [remove_dashes]. change (Ascii.eqb "+"%char "-"%char) with false.
  cbv iota. rewrite (remove_dashes_digits number Hd).
  unfold startsWith. cbn [String.prefix].
  destruct (ascii_dec "+"%char "+"%char) as [_|N]; [|contradiction].
  replace (String.prefix "" number) with true by (destruct number; reflexivity).
  cbn [String.length Nat.sub substring]. rewrite Nat.sub_0_r, substring_all.
  unfold ten_to_fifteen_digits. rewrite Hd.
  destruct Hlen as [-> | ->]; reflexivity.
Qed.

End PhoneAgreement.

Section Vendors.
Import OrderNotify.

Local Abbreviation step :=
  (fun (m : vendor_map) (vendor : VendorInfo) =>
     if negb (has m (name vendor)) then set_new m (name vendor) vendor else m).

Local Abbreviation named k := (fun x : VendorInfo => String.eqb (name x) k).

Lemma has_false_iff (m : vendor_map) (k : string) :
  has m k = false <-> ~ In k (map fst m).
Proof.
  unfold has. split.
  - intros H Hin. apply in_map_iff in Hin. destruct Hin as [e [<- Hin]].
    assert (existsb (fun e0 => String.eqb (fst e0) (fst e)) m = true).
    { apply existsb_exists. exists e. split; [exact Hin|apply String.eqb_refl]. }
    congruence.
  - intros H. apply not_true_is_false. intros Hex.
    apply existsb_exists in Hex. destruct Hex as [e [Hin He]].
    apply String.eqb_eq in He. apply H. rewrite <- He. apply in_map, Hin.
Qed.

Lemma has_app (m : vendor_map) (k k' : string) (v : VendorInfo) :
  has (m ++ [(k', v)]) k = has m k || String.eqb k' k.
Proof.
  unfold has. rewrite existsb_app. cbn [existsb fst].
  rewrite orb_false_r. reflexivity.
Qed.

Lemma fold_entries (vs : list VendorInfo) :
  forall (m : vendor_map) (e : string * VendorInfo),
    In e (fold_left step vs m) <->
    In e m \/ (has m (fst e) = false /\ fst e = name (snd e) /\
               find (named (fst e)) vs = Some (snd e)).
Proof.
  induction vs as [|v vs IH]; intros m [k x]; cbn [fold_left fst snd find].
  - split; [auto|]. intros [H|[_ [_ H]]]; [exact H|discriminate].
  - rewrite IH. cbn [fst snd].
    destruct (has m (name v)) eqn:Hhas; cbn [negb].
    + destruct (String.eqb_spec (name v) k) as [Heq|Hne].
      * subst k. rewrite Hhas. split; intros [H|[H _]]; auto; discriminate.
      * tauto.
    + unfold set_new. rewrite has_app, in_app_iff. cbn [In].
      destruct (String.eqb_spec (name v) k) as [Heq|Hne].
      * subst k. rewrite orb_true_r. split.
        -- intros [[H|[H|[]]]|[H _]]; [auto| |discriminate].
           inversion H; subst x. right. auto.
        -- intros [H|[_ [_ H]]]; [auto|].
           inversion H; subst x. left. right. left. reflexivity.
      * rewrite orb_false_r. split.
        -- intros [[H|[H|[]]]|H]; [auto| |auto].
           inversion H. contradiction.
        -- intros [H|H]; auto.
Qed.

Lemma fold_keys_nodup (vs : list VendorInfo) :
  forall m : vendor_map,
    NoDup (map fst m) -> NoDup (map fst (fold_left step vs m)).
Proof.
  induction vs as [|v vs IH]; intros m Hnd; [exact Hnd|].
  cbn [fold_left]. apply IH.
  destruct (has m (name v)) eqn:Hhas; cbn [negb]; [exact Hnd|].
  unfold set_new. rewrite map_app. cbn [map fst].
  apply NoDup_app; [exact Hnd|constructor; [intros []|constructor]|].
  intros a Hin [<-|[]]. apply has_false_iff in Hhas. contradiction.
Qed.

(** X19. Vendors are listed once per name.  The vendors
    [buildOrderMessage] lists have distinct names; a vendor is listed
    exactly when it is the first of the order's vendors with its name;
    and every name among the order's vendors is listed. *)
Theorem uniqueVendors_first_of_each_name :
  forall vs : list VendorInfo,
    NoDup (map name (uniqueVendors vs)) /\
    (forall v, In v (uniqueVendors vs) <->
               find (named (name v)) vs = Some v) /\
    (forall v, In v vs -> In (name v) (map name (uniqueVendors vs))).
Proof.
  intros vs. unfold uniqueVendors, uniqueVendorsMap.
  assert (Hent : forall e, In e (fold_left step vs []) ->
                           fst e = name (snd e)
                           /\ find (named (fst e)) vs = Some (snd e)).
  { intros e He. apply fold_entries in He.
    destruct He as [[]|[_ H]]. exact H. }
  assert (Hin : forall v, In v (map snd (fold_left step vs [])) <->
                          find (named (name v)) vs = Some v).
  { intros v. rewrite in_map_iff. split.
    - intros [[k x] [Hx He]]. cbn [snd] in Hx. subst x.
      destruct (Hent _ He) as [Hk Hf]. cbn [fst snd] in *. subst k. exact Hf.
    - intros Hf. exists (name v, v). split; [reflexivity|].
      apply fold_entries. right. cbn [fst snd]. auto. }
  split; [|split].
  - rewrite map_map.
    rewrite (map_ext_in (fun e => name (snd e)) fst).
    + apply fold_keys_nodup. constructor.
    + intros e He. symmetry. apply (Hent e He).
  - exact Hin.
  - intros v Hv.
    destruct (find (named (name v)) vs) as [v'|] eqn:Hf.
    + pose proof (find_some _ _ Hf) as [_ Hname].
      apply String.eqb_eq in Hname. rewrite <- Hname.
      apply in_map. apply Hin. rewrite Hname. exact Hf.
    + exfalso. pose proof (find_none _ _ Hf v Hv) as Hn.
      cbv beta in Hn. rewrite String.eqb_refl in Hn. discriminate.
Qed.

End Vendors.

Section OrderSending.
Import Js OrderNotify Settings.

Lemma append_slash_nonempty (t : string) : (t ++ "/")%string <> "".
Proof. destruct t; discriminate. Qed.

(** X20. Stripping the trailing slashes of the API URL removes a run of
    slashes at the end and nothing else: the URL is the result followed by
    slashes only, and the result does not end with a slash. *)
Theorem strip_trailing_slashes_spec :
  forall s : string,
    (exists n, s = (strip_trailing_slashes s ++ slashes n)%string) /\
    (forall t, strip_trailing_slashes s <> (t ++ "/")%string).
Proof.
  induction s as [|a s [[n Hn] Hend]].
  - split; [exists 0%nat; reflexivity|]. intros t H. symmetry in H.
    exact (append_slash_nonempty t H).
  - cbn [strip_trailing_slashes].
    destruct (String.eqb_spec (strip_trailing_slashes s) "") as [He|Hne];
      cbn [andb].
    + destruct (Ascii.eqb_spec a "/"%char) as [->|Ha].
      * split.
        -- exists (S n). rewrite Hn at 1. rewrite He. reflexivity.
        -- intros t H. symmetry in H. exact (append_slash_nonempty t H).
      * split.
        -- exists n. rewrite Hn at 1. reflexivity.
        -- intros t H. rewrite He in H. destruct t as [|b t].
           ++ inversion H. contradiction.
           ++ inversion H. destruct t; discriminate.
    + split.
      * exists n. rewrite Hn at 1. reflexivity.
      * intros t H. destruct t as [|b t].
        -- inversion H. contradiction.
        -- inversion H. apply (Hend t). assumption.
Qed.


End OrderSending.

(** * The order webhook and the Shopify context *)

Section VendorLookup.
Import OrderNotify Vendor.

Lemma field_value_nonempty (fields : list MetaobjectField) (k v : string) :
  field_value fields k = Some v -> v <> "".
Proof.
  unfold field_value.
  destruct (find (fun f => String.eqb (key f) k) fields) as [f|];
    [|discriminate].
  destruct (String.eqb_spec (value f) ""); [discriminate|].
  intros H. inversion H. subst v. assumption.
Qed.

(** X22. A vendor looked up for the order message always has a name, and
    a phone that is absent or not empty, whatever the GraphQL request
    gave, a failed request included.  So its line in the message is its
    name alone when it has no phone, and otherwise its name followed by
    a wa.me link to 91 and the digits of the phone. *)
Theorem fetchVendorInfo_always_named :
  forall response : graphql_outcome,
    let v := fetchVendorInfo response in
    name v <> "" /\
    (phone v = None -> vendorLink v = name v) /\
    (forall p, phone v = Some p ->
               p <> "" /\
               vendorLink v
               = (name v ++ ": https://wa.me/" ++ "91" ++ digits_only p)%string).
Proof.
  intros response v. subst v.
  destruct response as [|found]; cbn [fetchVendorInfo name phone].
  - split; [discriminate|]. split; [reflexivity|]. intros p H. discriminate.
  - set (fields := match found with Some l => l | None => [] end).
    split; [|split].
    + destruct (field_value fields "name") as [n|] eqn:Hn;
        [exact (field_value_nonempty _ _ _ Hn)|discriminate].
    + intros H. unfold vendorLink. cbn [phone name]. rewrite H. reflexivity.
    + intros p H. pose proof (field_value_nonempty _ _ _ H) as Hp.
      split; [exact Hp|]. unfold vendorLink. cbn [phone name]. rewrite H.
      apply String.eqb_neq in Hp. rewrite Hp. reflexivity.
Qed.

End VendorLookup.

Section ShopifyContext.
Import Shopify.

Lemma drop_append (pre rest : string) :
  drop (String.length pre) (pre ++ rest) = rest.
Proof. unfold drop. apply substring_append. Qed.

(** X23. The host name of the Shopify context is [HOST] without its
    scheme: an "https://" or "http://" at the start is removed, and a
    string in which neither occurs is left as it is. *)
Theorem remove_scheme_spec :
  forall h : string,
    remove_scheme ("https://" ++ h) = h /\
    remove_scheme ("http://" ++ h) = h /\
    (Evolution.includes "http://" h = false ->
     Evolution.includes "https://" h = false ->
     remove_scheme h = h).
Proof.
  intros h. split; [|split].
  - change (remove_scheme ("https://" ++ h))
      with (if String.prefix "https://" ("https://" ++ h)
            then drop 8 ("https://" ++ h)
            else if String.prefix "http://" ("https://" ++ h)
                 then drop 7 ("https://" ++ h)
                 else String "h" (remove_scheme ("ttps://" ++ h))).
    rewrite prefix_append. apply (drop_append "https://").
  - change (remove_scheme ("http://" ++ h))
      with (if String.prefix "https://" ("http://" ++ h)
            then drop 8 ("http://" ++ h)
            else if String.prefix "http://" ("http://" ++ h)
                 then drop 7 ("http://" ++ h)
                 else String "h" (remove_scheme ("ttp://" ++ h))).
    replace (String.prefix "https://" ("http://" ++ h)) with false
      by (cbn; reflexivity).
    rewrite prefix_append. apply (drop_append "http://").
  - induction h as [|a h IH]; intros H1 H2; [reflexivity|].
    cbn [Evolution.includes] in H1, H2.
    apply orb_false_iff in H1, H2. destruct H1 as [P1 I1], H2 as [P2 I2].
    change (remove_scheme (String a h))
      with (if String.prefix "https://" (String a h) then drop 8 (String a h)
            else if String.prefix "http://" (String a h)
                 then drop 7 (String a h)
                 else String a (remove_scheme h)).
    rewrite P1, P2, (IH I1 I2). reflexivity.
Qed.

Lemma split_comma_cons (s : string) :
  exists part parts, split_comma s = part :: parts.
Proof.
  induction s as [|a s [part [parts IH]]]; cbn [split_comma]; [eauto|].
  destruct (Ascii.eqb a ","%char); [eauto|]. rewrite IH. eauto.
Qed.

Lemma join_cons (sep x y : string) (l : list string) :
  OrderNotify.join sep (x :: y :: l)
  = (x ++ sep ++ OrderNotify.join sep (y :: l))%string.
Proof. reflexivity. Qed.

(** X24. Splitting at commas loses nothing: there is always at least
    one part, no part holds a comma, joining the parts with commas gives
    the string back, and the first part is the text before the first
    comma, which is what the issuance request takes from the
    [x-forwarded-for] header. *)
Theorem split_comma_spec :
  forall s : string,
    split_comma s <> [] /\
    Forall (fun part => has_comma part = false) (split_comma s) /\
    OrderNotify.join "," (split_comma s) = s /\
    hd EmptyString (split_comma s) = Js.before_comma s.
Proof.
  induction s as [|a s [Hne [Hall [Hjoin Hhd]]]].
  - cbn. repeat split; [discriminate|repeat constructor].
  - cbn [split_comma Js.before_comma].
    destruct (split_comma_cons s) as [part [parts E]].
    destruct (Ascii.eqb_spec a ","%char) as [->|Ha].
    + rewrite E in *. repeat split.
      * discriminate.
      * constructor; [reflexivity|exact Hall].
      * rewrite join_cons, Hjoin. reflexivity.
    + rewrite E in *. repeat split.
      * discriminate.
      * inversion Hall; subst. constructor; [|assumption].
        cbn [has_comma]. apply Ascii.eqb_neq in Ha. rewrite Ha. assumption.
      * destruct parts as [|q parts].
        -- cbn [OrderNotify.join] in *. rewrite Hjoin. reflexivity.
        -- rewrite join_cons in *. rewrite <- Hjoin. reflexivity.
      * cbn [hd] in *. rewrite Hhd. reflexivity.
Qed.


End ShopifyContext.

(** * Instances of the further properties *)

Lemma valid_two_phones : valid_table Sample.two_phones.
Proof.
  split; (constructor;
          [intros [H|[]]; discriminate | constructor; [intros []|constructor]]).
Defined.

Lemma range_demo_table : Budget.attempts_in_range Demo.table.
Proof. constructor; [cbn; lia|constructor]. Defined.

Lemma cleanup_expired_otps_removes_expired_witness :
  0 <= 300000001 /\
  snd (cleanup_expired_otps Demo.table 300000001) = 1.
Proof.
  assert (H : 0 <= 300000001) by lia.
  split; [exact H|].
  exact (proj1 (proj2 (cleanup_expired_otps_removes_expired
                         Demo.table 300000001 0 H))).
Defined.

Lemma verify_otp_after_cleanup_witness :
  valid_table Demo.table /\ 300000001 <= 300000002 /\
  success (snd (verify_otp (fst (cleanup_expired_otps Demo.table 300000001))
                           300000002 Demo.phone "482913"))
  = success (snd (verify_otp Demo.table 300000002 Demo.phone "482913")).
Proof.
  assert (H : 300000001 <= 300000002) by lia.
  split; [exact valid_demo_table|]. split; [exact H|].
  exact (proj1 (verify_otp_after_cleanup
                  Demo.table 300000001 300000002 Demo.phone "482913"
                  valid_demo_table H)).
Defined.

Lemma verify_otp_leaves_other_phones_witness :
  valid_table Sample.two_phones /\ Sample.other_phone <> Demo.phone /\
  rows_of (fst (verify_otp Sample.two_phones 2000000 Demo.phone "482913"))
          Sample.other_phone
  = rows_of Sample.two_phones Sample.other_phone.
Proof.
  assert (H : Sample.other_phone <> Demo.phone) by discriminate.
  split; [exact valid_two_phones|]. split; [exact H|].
  exact (proj1 (verify_otp_leaves_other_phones
                  Sample.two_phones 2000000 2000000 Demo.phone "482913"
                  Sample.other_phone "660011" 15 valid_two_phones H)).
Defined.

Lemma create_otp_entry_leaves_other_phones_witness :
  Sample.other_phone <> Demo.phone /\
  rows_of (fst (create_otp_entry Sample.two_phones 20000000 Demo.phone
                                 "731135" 5 None 3%N))
          Sample.other_phone
  = rows_of Sample.two_phones Sample.other_phone.
Proof.
  assert (H : Sample.other_phone <> Demo.phone) by discriminate.
  split; [exact H|].
  exact (create_otp_entry_leaves_other_phones
           Sample.two_phones 20000000 Demo.phone "731135" 5 None 3%N
           Sample.other_phone H).
Defined.

Lemma attempts_stay_in_range_witness :
  valid_table Demo.table /\ Budget.attempts_in_range Demo.table /\
  0 <= remaining_attempts (snd (verify_otp Demo.table 1000000 Demo.phone
                                           "000000")) <= 4.
Proof.
  split; [exact valid_demo_table|]. split; [exact range_demo_table|].
  exact (proj2 (proj2 (attempts_stay_in_range
                         Demo.table 1000000 Demo.phone "000000" "731135" 5
                         None 3%N valid_demo_table range_demo_table))).
Defined.

Lemma verify_otp_bounds_guessing_witness :
  valid_table Demo.table /\ Budget.attempts_in_range Demo.table /\
  (List.length
     (filter Budget.compared
        (snd (verify_all Demo.table Demo.phone
                (Demo.wrong_calls ++ Demo.wrong_calls)))) <= 5)%nat.
Proof.
  split; [exact valid_demo_table|]. split; [exact range_demo_table|].
  exact (proj1 (verify_otp_bounds_guessing
                  Demo.table Demo.phone (Demo.wrong_calls ++ Demo.wrong_calls)
                  valid_demo_table range_demo_table)).
Defined.

Lemma rate_limit_after_issue_witness :
  create_otp_entry [] 0 Demo.phone "482913" 5 None 1%N = (Demo.table, Ok 1%N) /\
  0 <= 5000000 - 0 < 2147483647000000 /\
  0 <= 15 <= int4_max /\
  check_otp_rate_limit Demo.table 5000000 Demo.phone 15 = Ok (false, 10).
Proof.
  assert (H1 : 0 <= 5000000 - 0 < 2147483647000000) by lia.
  assert (H2 : 0 <= 15 <= int4_max) by (unfold int4_max; lia).
  split; [reflexivity|]. split; [exact H1|]. split; [exact H2|].
  exact (proj1 (proj1 (rate_limit_after_issue
                         [] Demo.table 0 5000000 Demo.phone "482913" 5 None
                         1%N 1%N 15 eq_refl H1 H2)
                      ltac:(lia))).
Defined.

Lemma formatPhoneForWhatsApp_of_valid_witness :
  SendOtp.isValidFormat Demo.phone = true /\
  Js.all_digits (Evolution.formatPhoneForWhatsApp Demo.phone) = true.
Proof.
  split; [reflexivity|].
  exact (proj1 (proj2 (formatPhoneForWhatsApp_of_valid Demo.phone eq_refl))).
Defined.

Lemma send_handler_writes_only_on_200_witness :
  Js.is_random (SendOtp.random Demo.send_world) /\
  (SendOtp.status (snd (SendOtp.handler [] Demo.send_request Demo.send_world))
   <> 200 ->
   fst (SendOtp.handler [] Demo.send_request Demo.send_world) = []).
Proof.
  split; [exact random_zero|].
  exact (proj1 (send_handler_writes_only_on_200
                  [] Demo.send_request Demo.send_world random_zero)).
Defined.

Lemma send_handler_cooldown_witness :
  SendOtp.status (snd (SendOtp.handler [] Demo.send_request Demo.send_world))
  = 200 /\
  0 <= SendOtp.now_rate_limit Sample.second_world
       - SendOtp.now_create Demo.send_world < 14500000 /\
  exists wait msg,
    1 <= wait <= 15 /\
    SendOtp.handler (fst (SendOtp.handler [] Demo.send_request Demo.send_world))
                    Demo.send_request Sample.second_world
    = (fst (SendOtp.handler [] Demo.send_request Demo.send_world),
       SendOtp.mk_response 429 (SendOtp.RateLimitedBody msg wait)).
Proof.
  assert (H : 0 <= SendOtp.now_rate_limit Sample.second_world
                   - SendOtp.now_create Demo.send_world < 14500000)
    by (cbn; lia).
  split; [reflexivity|]. split; [exact H|].
  exact (send_handler_cooldown
           [] Demo.send_request Demo.send_request Demo.send_world
           Sample.second_world Demo.phone eq_refl eq_refl eq_refl eq_refl
           eq_refl H).
Defined.

Lemma verify_handler_session_requires_code_witness :
  valid_table (VerifyOtp.otps Sample.newcomer) /\
  (VerifyOtp.status
     (snd (VerifyOtp.handler Sample.newcomer
             (Contract.post Demo.phone "000000") (Demo.login_world 1000000)))
   <> 200 ->
   VerifyOtp.status
     (snd (VerifyOtp.handler Sample.newcomer
             (Contract.post Demo.phone "000000") (Demo.login_world 1000000)))
   <> 500 ->
   VerifyOtp.users
     (fst (VerifyOtp.handler Sample.newcomer
             (Contract.post Demo.phone "000000") (Demo.login_world 1000000)))
   = VerifyOtp.users Sample.newcomer).
Proof.
  split; [exact valid_demo_table|].
  exact (proj2 (verify_handler_session_requires_code
                  Sample.newcomer (Contract.post Demo.phone "000000")
                  (Demo.login_world 1000000) valid_demo_table)).
Defined.

Lemma first_login_of_new_phone_witness :
  valid_table (VerifyOtp.otps Sample.newcomer) /\
  newest (live_rows (VerifyOtp.otps Sample.newcomer) Demo.phone)
  = Some Demo.row /\
  find (Identity.has_phone Demo.phone) (VerifyOtp.users Sample.newcomer)
  = None /\
  snd (VerifyOtp.handler Sample.newcomer (Contract.post Demo.phone "482913")
                         (Demo.login_world 1000000))
  = VerifyOtp.mk_response 500 (VerifyOtp.ErrorBody "Internal server error").
Proof.
  split; [exact valid_demo_table|]. split; [reflexivity|].
  split; [reflexivity|].
  refine (proj1 (first_login_of_new_phone
                   Sample.newcomer Demo.phone "482913"
                   (Demo.login_world 1000000) (Demo.login_world 2000000)
                   Demo.row valid_demo_table _ _ eq_refl eq_refl _ _ eq_refl));
    first [discriminate | cbn; lia].
Defined.

Lemma mint_reuses_account_witness :
  find (Identity.has_phone Demo.phone) [Demo.account] = Some Demo.account /\
  map Identity.user_id
      (fst (VerifyOtp.mintSession [Demo.account] Demo.phone
                                  (Demo.login_world 0)))
  = map Identity.user_id [Demo.account].
Proof.
  split; [reflexivity|].
  exact (proj1 (mint_reuses_account
                  [Demo.account] Demo.phone (Demo.login_world 0) Demo.account
                  eq_refl)).
Defined.

Lemma formatPhoneForEvolution_result_witness :
  OrderNotify.formatPhoneForEvolution (Some Sample.written_phone)
  = Some "919876543210" /\
  "919876543210" = OrderNotify.digits_only Sample.written_phone.
Proof.
  split; [reflexivity|].
  exact (proj1 (formatPhoneForEvolution_result
                  Sample.written_phone "919876543210" eq_refl)).
Defined.

Lemma formatPhoneForEvolution_idempotent_witness :
  OrderNotify.formatPhoneForEvolution (Some Sample.written_phone)
  = Some "919876543210" /\
  OrderNotify.formatPhoneForEvolution (Some "919876543210")
  = Some "919876543210".
Proof.
  split; [reflexivity|].
  exact (formatPhoneForEvolution_idempotent
           (Some Sample.written_phone) "919876543210" eq_refl).
Defined.

Lemma formatPhoneForEvolution_of_valid_witness :
  SendOtp.isValidFormat Demo.phone = true /\
  OrderNotify.formatPhoneForEvolution (Some Demo.phone)
  = Some (Evolution.formatPhoneForWhatsApp Demo.phone).
Proof.
  split; [reflexivity|].
  exact (formatPhoneForEvolution_of_valid Demo.phone eq_refl).
Defined.
